(** * Klipper Save-Restore Position: a shallow embedding

  The embedded program is [extensions/klipper_save_restore_position.py]:
  the class [KlipperSaveRestorePosition], which keeps a three-slot list
  [_saved_position] (X, Y, Z; each a float or [None]) and turns it into a
  [G0] move on request.

  Conventions of the embedding:
  - a Python [float] is a binary64 primitive float, [+] is IEEE addition;
  - a Python [str] is a [string]; its characters are code points below 256;
  - a Python [list] is a [list] read with [!!] and written with [<[_:=_]>],
    an index out of range raising [IndexError];
  - a Python [dict] is a [gmap], a missing key raising [KeyError];
  - a method is a computation [M A]: it takes the object, and gives back
    either a value or a raised exception, together with the object as the
    method left it (what was assigned before a [raise] stays assigned). *)

From Stdlib Require Import ZArith String Ascii DecimalString.
From Stdlib Require Import Floats.PrimFloat Floats.FloatOps Floats.SpecFloat.
From stdpp Require Import gmap strings list.

Set Warnings "-inexact-float,-clear-no-such-hyp".

(** ** Python values: exceptions, [repr], [str] *)

Module Py.

(** The exceptions the module can see.  [Exception msg cause] is
    [raise Exception(msg) from cause], and likewise [CommandError], the
    host's [gcmd.error]: [cause] is the [__cause__] of the new exception.
    [HostError] stands for whatever the host's own code raises. *)
Inductive exn : Type :=
| KeyError (key : string)
| IndexError (msg : string)
| TypeError (msg : string)
| HostError (msg : string)
| Exception (msg : string) (cause : exn)
| CommandError (msg : string) (cause : exn).

Inductive result (A : Type) : Type :=
| Return (a : A)
| Raise (e : exn).
Arguments Return {A} a.
Arguments Raise {A} e.

Definition squote : ascii := "'"%char.
Definition dquote : ascii := "034"%char.
Definition backslash : ascii := "092"%char.

(** [str.isprintable] on one code point below 256. *)
Definition printable (c : ascii) : bool :=
  let n := N_of_ascii c in
  ((32 <=? n) && (n <? 127) || (161 <=? n) && negb (n =? 173))%N.

Definition hex_digit (n : N) : ascii :=
  if (n <? 10)%N then ascii_of_N (48 + n) else ascii_of_N (87 + n).

Definition repr_char (quote c : ascii) : string :=
  if bool_decide (c = quote) || bool_decide (c = backslash)
  then String backslash (String c EmptyString)
  else if bool_decide (c = "009"%char) then String backslash "t"
  else if bool_decide (c = "010"%char) then String backslash "n"
  else if bool_decide (c = "013"%char) then String backslash "r"
  else if printable c then String c EmptyString
  else String backslash
         (String "x" (String (hex_digit (N_of_ascii c / 16))
                        (String (hex_digit (N_of_ascii c mod 16)) EmptyString))).

Fixpoint has_char (c : ascii) (s : string) : bool :=
  match s with
  | EmptyString => false
  | String c' s' => bool_decide (c = c') || has_char c s'
  end.

Fixpoint repr_body (quote : ascii) (s : string) : string :=
  match s with
  | EmptyString => EmptyString
  | String c s' => repr_char quote c +:+ repr_body quote s'
  end.

(** [repr(s)] of a [str]: single quotes, unless the text has a single
    quote and no double quote. *)
Definition repr (s : string) : string :=
  let quote := if has_char squote s && negb (has_char dquote s)
               then dquote else squote in
  String quote (repr_body quote s +:+ String quote EmptyString).

(** [str(e)]: the message; for a [KeyError] the [repr] of the key. *)
Definition str (e : exn) : string :=
  match e with
  | KeyError key => repr key
  | IndexError msg | TypeError msg | HostError msg => msg
  | Exception msg _ | CommandError msg _ => msg
  end.

(** [for c in s]: the one-character strings of [s], in order. *)
Fixpoint chars (s : string) : list string :=
  match s with
  | EmptyString => []
  | String c s' => String c EmptyString :: chars s'
  end.

(** Truth value of an [int] or [None]: [None] and [0] are false. *)
Definition truthy (n : option Z) : bool :=
  match n with
  | Some n => negb (n =? 0)%Z
  | None => false
  end.

End Py.

(** ** [%]-formatting of numbers *)

Module Fmt.

Local Open Scope Z_scope.

Definition digit (d : Z) : ascii := ascii_of_N (48 + Z.to_N d).

(** ["%i" % n] *)
Definition format_i (n : Z) : string := NilZero.string_of_int (Z.to_int n).

(** The integer nearest to [num / den], ties to the even one
    ([0 <= num], [0 < den]). *)
Definition round_half_even (num den : Z) : Z :=
  let q := num / den in
  match 2 * (num mod den) ?= den with
  | Lt => q
  | Gt => q + 1
  | Eq => if Z.even q then q else q + 1
  end.

(** [m * 2^e] in thousandths, correctly rounded. *)
Definition thousandths (m : positive) (e : Z) : Z :=
  if 0 <=? e then Z.pos m * 2 ^ e * 1000
  else round_half_even (Z.pos m * 1000) (2 ^ (- e)).

(** [n] thousandths written with three decimals. *)
Definition fixed_3 (n : Z) : string :=
  let r := n mod 1000 in
  format_i (n / 1000) +:+
  String "." (String (digit (r / 100))
               (String (digit (r / 10 mod 10))
                 (String (digit (r mod 10)) EmptyString))).

Definition sign (s : bool) : string := if s then "-" else "".

(** ["%.3f" % x]: the exact binary value of [x], rounded half-even to
    three decimals; [nan] and the infinities by name. *)
Definition format_3f (x : float) : string :=
  match Prim2SF x with
  | S754_nan => "nan"
  | S754_infinity s => sign s +:+ "inf"
  | S754_zero s => sign s +:+ "0.000"
  | S754_finite s m e => sign s +:+ fixed_3 (thousandths m e)
  end.

End Fmt.

Export Py Fmt.

(** ** The computations of a method *)

(** The object: [self._saved_position], and [self.gcode], the host's
    dispatcher, seen through the scripts handed to its
    [run_script_from_command] so far, oldest first. *)
Record KlipperSaveRestorePosition : Type := {
  _saved_position : list (option float);
  gcode : list string
}.

Definition M (A : Type) : Type :=
  KlipperSaveRestorePosition → result A * KlipperSaveRestorePosition.

#[global] Instance M_ret : MRet M := λ A a self, (Return a, self).

#[global] Instance M_bind : MBind M := λ A B f m self,
  match m self with
  | (Return a, self') => f a self'
  | (Raise e, self') => (Raise e, self')
  end.

Definition raise {A : Type} (e : exn) : M A := λ self, (Raise e, self).

(** [try: body  except Exception as e: handler e] *)
Definition try_except {A : Type} (body : M A) (handler : exn → M A) : M A :=
  λ self,
    match body self with
    | (Return a, self') => (Return a, self')
    | (Raise e, self') => handler e self'
    end.

(** [for x in xs: local = body local x], the local variable threaded. *)
Fixpoint for_in {A B : Type} (xs : list A) (local : B) (body : B → A → M B)
  : M B :=
  match xs with
  | [] => mret local
  | x :: xs' => local' ← body local x; for_in xs' local' body
  end.

(** [d[k]] *)
Definition dict_getitem {V : Type} (d : gmap string V) (k : string) : M V :=
  match d !! k with
  | Some v => mret v
  | None => raise (KeyError k)
  end.

(** [l[i]] *)
Definition list_getitem {A : Type} (l : list A) (i : nat) : M A :=
  match l !! i with
  | Some v => mret v
  | None => raise (IndexError "list index out of range")
  end.

(** [l[i] = v] *)
Definition list_setitem {A : Type} (l : list A) (i : nat) (v : A)
  : M (list A) :=
  if decide (i < length l) then mret (<[i:=v]> l)
  else raise (IndexError "list assignment index out of range").

(** [old + adjust], where [old] may be [None]. *)
Definition float_add (old : option float) (adjust : float) : M float :=
  match old with
  | Some v => mret (v + adjust)%float
  | None =>
      raise (TypeError "unsupported operand type(s) for +=: 'NoneType' and 'float'")
  end.

Definition get_saved_position : M (list (option float)) :=
  λ self, (Return (_saved_position self), self).

Definition set_saved_position (l : list (option float)) : M unit :=
  λ self, (Return tt, {| _saved_position := l; gcode := gcode self |}).

(** ** The module *)

Definition XYZ_TO_INDEX : gmap string nat :=
  list_to_map [("x", 0); ("X", 0); ("y", 1); ("Y", 1); ("z", 2); ("Z", 2)].

Definition INDEX_TO_XYZ : gmap nat string :=
  list_to_map [(0, "X"); (1, "Y"); (2, "Z")].

(** The host's parsed command, [gcode.GCodeCommand], by the parameters the
    module reads: the float parameters by name, [AXIS] and [SPEED].  A
    parameter that is absent reads as the default the caller gives.  The
    record holds values: a parameter whose text the host cannot parse, on
    which the host's [get_float] or [get_int] raises its own command
    error, is not a command of this type. *)
Record GCodeCommand : Type := {
  float_params : gmap string float;
  AXIS : option string;
  SPEED : option Z
}.

(** [gcmd.get_float(name, None)] *)
Definition get_float (gcmd : GCodeCommand) (name : string) : option float :=
  float_params gcmd !! name.

(** [str.isspace] on one code point below 256. *)
Definition isspace (c : ascii) : bool :=
  let n := N_of_ascii c in
  ((9 <=? n) && (n <=? 13) || (28 <=? n) && (n <=? 32)
   || (n =? 133) || (n =? 160))%N.

Fixpoint lstrip (s : string) : string :=
  match s with
  | EmptyString => EmptyString
  | String c s' => if isspace c then lstrip s' else s
  end.

Fixpoint rstrip (s : string) : string :=
  match s with
  | EmptyString => EmptyString
  | String c s' =>
      match rstrip s' with
      | EmptyString => if isspace c then EmptyString else String c EmptyString
      | r => String c r
      end
  end.

(** [s.strip()] *)
Definition strip (s : string) : string := rstrip (lstrip s).

(** [s.replace(" ", "")] *)
Fixpoint remove_spaces (s : string) : string :=
  match s with
  | EmptyString => EmptyString
  | String c s' =>
      if bool_decide (c = " "%char) then remove_spaces s'
      else String c (remove_spaces s')
  end.

Section KlipperSaveRestorePosition.

(** The host.  [current_position] is what
    [gcode_move._get_gcode_position()] returns, the list [x, y, z, e] of
    the host, read here only at the indices of [XYZ_TO_INDEX].
    [run_script_from_command] tells whether the host's executor fails on a
    script, and with what. *)
Variable current_position : nat → float.
Variable run_script_from_command : string → option exn.

(** [self.gcode.run_script_from_command(cmd)] *)
Definition gcode_run_script_from_command (cmd : string) : M unit :=
  λ self,
    let self' := {| _saved_position := _saved_position self;
                    gcode := gcode self ++ [cmd] |} in
    match run_script_from_command cmd with
    | None => (Return tt, self')
    | Some e => (Raise e, self')
    end.

(** [__init__]: the object as constructed (the registration of the three
    commands with the host is not part of the object's state). *)
Definition __init__ : KlipperSaveRestorePosition :=
  {| _saved_position := [None; None; None]; gcode := [] |}.

(** The list is the caller's own: the source writes into the list it is
    given and returns that list, and its one caller hands it a fresh list,
    so the writes are seen through the returned list only. *)
Definition offset_from_gcmd (gcmd : GCodeCommand) (offset : list (option float))
  : M (list (option float)) :=
  for_in ["X"; "Y"; "Z"] offset (λ offset axis,
    let pos := get_float gcmd axis in
    let adjust := get_float gcmd (axis +:+ "_ADJUST") in
    match pos, adjust with
    | Some pos, _ =>
        i ← dict_getitem XYZ_TO_INDEX axis;
        list_setitem offset i (Some pos)
    | None, Some adjust =>
        i ← dict_getitem XYZ_TO_INDEX axis;
        old ← list_getitem offset i;
        new ← float_add old adjust;
        list_setitem offset i (Some new)
    | None, None => mret offset
    end).

Definition cmd_KTC_SAVE_POSITION (gcmd : GCodeCommand) : M unit :=
  try_except
    (offset ← offset_from_gcmd gcmd [None; None; None];
     set_saved_position offset)
    (λ e, raise (CommandError ("KTC_SAVE_POSITION: Error: " +:+ str e) e)).

Definition SaveCurrentPosition (restore_axis : string) : M unit :=
  set_saved_position [None; None; None];;
  for_in (chars restore_axis) tt (λ _ axis,
    if decide (is_Some (XYZ_TO_INDEX !! axis)) then
      i ← dict_getitem XYZ_TO_INDEX axis;
      saved ← get_saved_position;
      saved' ← list_setitem saved i (Some (current_position i));
      set_saved_position saved'
    else mret tt).

Definition cmd_KTC_SAVE_CURRENT_POSITION (gcmd : GCodeCommand) : M unit :=
  let restore_axis := remove_spaces (default "XYZ" (AXIS gcmd)) in
  SaveCurrentPosition restore_axis.

(** The slot is read twice in the source, in the test and in the format;
    nothing is written in between, so it is read once here. *)
Definition restore_position (axis_to_restore : string) (speed : option Z)
  : M unit :=
  try_except
    (cmd ← for_in (chars axis_to_restore) "G0" (λ cmd axis,
       i ← dict_getitem XYZ_TO_INDEX axis;
       saved ← get_saved_position;
       slot ← list_getitem saved i;
       match slot with
       | Some value => mret (cmd +:+ " " +:+ axis +:+ format_3f value)
       | None => mret cmd
       end);
     if decide (cmd ≠ "G0") then
       let cmd := if truthy speed
                  then cmd +:+ " F" +:+ format_i (default 0%Z speed)
                  else cmd in
       gcode_run_script_from_command cmd
     else mret tt)
    (λ e, raise (Exception ("Error restoring position: " +:+ str e) e)).

(** [gcmd.get_int("SPEED", None)] is read before the [try], as the
    integer the command holds. *)
Definition cmd_KTC_RESTORE_POSITION (gcmd : GCodeCommand) : M unit :=
  let axis_to_restore := strip (default "XYZ" (AXIS gcmd)) in
  let speed := SPEED gcmd in
  try_except (restore_position axis_to_restore speed)
    (λ e, raise (CommandError "" e)).

Definition get_status : M (gmap string (list (option float))) :=
  saved ← get_saved_position;
  mret {[ "saved_position" := saved ]}.

(** [load_config(config)]: the object the constructor gives. *)
Definition load_config : KlipperSaveRestorePosition := __init__.

End KlipperSaveRestorePosition.

(** ** What the specification says, in its own words *)

(** The slot of an axis letter, if the letter is one of the table. *)
Definition slot_of (saved : list (option float)) (axis : string)
  : option float :=
  i ← XYZ_TO_INDEX !! axis; v ← saved !! i; v.

(** The axis terms of a restore: for each requested axis in the order
    given, a blank, the letter and the stored value with three decimals;
    nothing for an axis without a stored value. *)
Fixpoint axis_terms (saved : list (option float)) (axes : list string)
  : string :=
  match axes with
  | [] => ""
  | axis :: axes' =>
      match slot_of saved axis with
      | Some value => " " +:+ axis +:+ format_3f value
      | None => ""
      end +:+ axis_terms saved axes'
  end.

(** The feed term as the code appends it: for a feed rate other than 0. *)
Definition feed_term (speed : option Z) : string :=
  match speed with
  | Some n => if (n =? 0)%Z then "" else " F" +:+ format_i n
  | None => ""
  end.

(** The command of a restore as the specification words it: the axis
    terms, then a feed term whenever a feed rate was supplied; no command
    when there is no axis term. *)
Definition claimed_restore_command (saved : list (option float))
    (axes : list string) (speed : option Z) : option string :=
  if decide (axis_terms saved axes = "") then None
  else Some ("G0" +:+ axis_terms saved axes +:+
             match speed with
             | Some n => " F" +:+ format_i n
             | None => ""
             end).

(** Whether a capture of [restore_axis] asks for slot [i]. *)
Definition requested (i : nat) (restore_axis : string) : bool :=
  existsb (λ axis, bool_decide (XYZ_TO_INDEX !! axis = Some i))
    (chars restore_axis).

(** A payload names an adjustment for [axis] and no absolute value. *)
Definition adjust_only (gcmd : GCodeCommand) (axis : string) : bool :=
  bool_decide (get_float gcmd axis = None) &&
  bool_decide (is_Some (get_float gcmd (axis +:+ "_ADJUST"))).

(** The payload without the adjustment of [axis]. *)
Definition drop_adjust (axis : string) (gcmd : GCodeCommand) : GCodeCommand :=
  {| float_params := delete (axis +:+ "_ADJUST") (float_params gcmd);
     AXIS := AXIS gcmd; SPEED := SPEED gcmd |}.

(** A capture of all three axes, and at once a restore of all three with
    no feed rate. *)
Definition capture_then_restore (current_position : nat → float)
    (run_script_from_command : string → option exn) : M unit :=
  SaveCurrentPosition current_position "XYZ";;
  restore_position run_script_from_command "XYZ" None.

(** The round trip as the specification words it: the script handed to the
    executor commands each axis back to the exact value captured for it.
    What a script commands is a matter of the script alone, so there is a
    reading [commanded] of scripts that gives back, for every live
    position, the captured coordinate of each axis. *)
Definition exact_round_trip : Prop :=
  ∃ commanded : string → nat → float,
    ∀ (current_position : nat → float) run_script_from_command self cmd,
      gcode (capture_then_restore current_position run_script_from_command self).2
      = gcode self ++ [cmd] →
      ∀ i, i < 3 → commanded cmd i = current_position i.

(** Whether the text has the character [lower] or the character [upper]
    somewhere: how a sequence of axes names an axis, in either case. *)
Definition names_axis (lower upper : ascii) (restore_axis : string) : bool :=
  bool_decide (lower ∈ list_ascii_of_string restore_axis ∨
               upper ∈ list_ascii_of_string restore_axis).

(** The snapshot a capture of [restore_axis] leaves: the live coordinate
    in the slots asked for, the others unset. *)
Definition captured (current_position : nat → float) (restore_axis : string)
  : list (option float) :=
  (λ i, if requested i restore_axis then Some (current_position i) else None)
    <$> [0; 1; 2].

(** The slot of [axis] after [offset_from_gcmd], from the slot [old] before:
    the absolute value of the payload if there is one, else the old value
    plus the adjustment if there is one, else the old value. *)
Definition offset_slot (gcmd : GCodeCommand) (axis : string)
    (old : option float) : option float :=
  match get_float gcmd axis, get_float gcmd (axis +:+ "_ADJUST") with
  | Some pos, _ => Some pos
  | None, Some adjust => (λ v, (v + adjust)%float) <$> old
  | None, None => old
  end.

(** The payload adjusts [axis], gives no absolute value for it, and the
    slot [old] of the axis is [None]. *)
Definition adjusts_unset (gcmd : GCodeCommand) (axis : string)
    (old : option float) : bool :=
  adjust_only gcmd axis && bool_decide (old = None).

(** Every character of the text is whitespace. *)
Fixpoint all_space (s : string) : bool :=
  match s with
  | EmptyString => true
  | String c s' => isspace c && all_space s'
  end.

(** A computation that leaves the object as it found it, whatever its
    outcome. *)
Definition readonly {A : Type} (m : M A) : Prop :=
  ∀ self, (m self).2 = self.

(** The invariant of the snapshot: three slots. *)
Definition snapshot_inv (self : KlipperSaveRestorePosition) : Prop :=
  length (_saved_position self) = 3.

(** ** Facts about the embedding's own operations *)

Lemma XYZ_TO_INDEX_Some (axis : string) (i : nat) :
  XYZ_TO_INDEX !! axis = Some i ↔
  (i = 0 ∧ (axis = "x" ∨ axis = "X")) ∨
  (i = 1 ∧ (axis = "y" ∨ axis = "Y")) ∨
  (i = 2 ∧ (axis = "z" ∨ axis = "Z")).
Proof.
  unfold XYZ_TO_INDEX. simpl list_to_map.
  rewrite !lookup_insert_Some, lookup_empty. naive_solver.
Qed.

Lemma XYZ_TO_INDEX_lt (axis : string) (i : nat) :
  XYZ_TO_INDEX !! axis = Some i → i < 3.
Proof. rewrite XYZ_TO_INDEX_Some. lia. Qed.

Lemma XYZ_TO_INDEX_X : XYZ_TO_INDEX !! "X" = Some 0.
Proof. reflexivity. Qed.

Lemma XYZ_TO_INDEX_Y : XYZ_TO_INDEX !! "Y" = Some 1.
Proof. reflexivity. Qed.

Lemma XYZ_TO_INDEX_Z : XYZ_TO_INDEX !! "Z" = Some 2.
Proof. reflexivity. Qed.

Lemma XYZ_TO_INDEX_A : XYZ_TO_INDEX !! "A" = None.
Proof. reflexivity. Qed.

(** Unfolding of the monad's operations. *)
Ltac mret_unfold := unfold mret, M_ret, raise.

Lemma bind_Return {A B : Type} (m : M A) (f : A → M B) self a self' :
  m self = (Return a, self') → (m ≫= f) self = f a self'.
Proof. intros H. unfold mbind, M_bind. rewrite H. reflexivity. Qed.

Lemma bind_Raise {A B : Type} (m : M A) (f : A → M B) self e self' :
  m self = (Raise e, self') → (m ≫= f) self = (Raise e, self').
Proof. intros H. unfold mbind, M_bind. rewrite H. reflexivity. Qed.

Lemma for_in_cons {A B : Type} (x : A) (xs : list A) (local : B)
    (body : B → A → M B) :
  for_in (x :: xs) local body = body local x ≫= λ local', for_in xs local' body.
Proof. reflexivity. Qed.

Lemma list_setitem_lt {A : Type} (l : list A) (i : nat) (v : A) self :
  i < length l → list_setitem l i v self = (Return (<[i:=v]> l), self).
Proof. intros H. unfold list_setitem. rewrite decide_True by done. done. Qed.

Lemma list_getitem_Some {A : Type} (l : list A) (i : nat) (v : A) self :
  l !! i = Some v → list_getitem l i self = (Return v, self).
Proof. intros H. unfold list_getitem. rewrite H. done. Qed.

Lemma dict_getitem_Some {V : Type} (d : gmap string V) k v self :
  d !! k = Some v → dict_getitem d k self = (Return v, self).
Proof. intros H. unfold dict_getitem. rewrite H. done. Qed.

Lemma dict_getitem_None {V : Type} (d : gmap string V) k self :
  d !! k = None → dict_getitem d k self = (Raise (KeyError k), self).
Proof. intros H. unfold dict_getitem. rewrite H. done. Qed.

Lemma readonly_ret {A : Type} (a : A) : readonly (mret a).
Proof. done. Qed.

Lemma readonly_raise {A : Type} (e : exn) : readonly (raise (A:=A) e).
Proof. done. Qed.

Lemma readonly_bind {A B : Type} (m : M A) (f : A → M B) :
  readonly m → (∀ a, readonly (f a)) → readonly (m ≫= f).
Proof.
  intros Hm Hf self. unfold mbind, M_bind.
  specialize (Hm self). destruct (m self) as [[a|e] self']; simpl in *; subst.
  - apply Hf.
  - done.
Qed.

Lemma readonly_dict_getitem {V : Type} (d : gmap string V) (k : string) :
  readonly (dict_getitem d k).
Proof. unfold dict_getitem. by destruct (d !! k). Qed.

Lemma readonly_list_getitem {A : Type} (l : list A) (i : nat) :
  readonly (list_getitem l i).
Proof. unfold list_getitem. by destruct (l !! i). Qed.

Lemma readonly_list_setitem {A : Type} (l : list A) (i : nat) (v : A) :
  readonly (list_setitem l i v).
Proof. unfold list_setitem. by case_decide. Qed.

Lemma readonly_float_add (old : option float) (adjust : float) :
  readonly (float_add old adjust).
Proof. by destruct old. Qed.

Lemma readonly_get_saved_position : readonly get_saved_position.
Proof. done. Qed.

Lemma readonly_for_in {A B : Type} (xs : list A) (body : B → A → M B) :
  (∀ local x, readonly (body local x)) →
  ∀ local, readonly (for_in xs local body).
Proof.
  intros Hbody. induction xs as [|x xs IH]; intros local.
  - apply readonly_ret.
  - rewrite for_in_cons. by apply readonly_bind.
Qed.

(** Strings: appending is associative, and only empty parts give the
    empty string. *)
Lemma append_nil_str (b : string) : "" +:+ b = b.
Proof. reflexivity. Qed.

Lemma append_cons_str (c : ascii) (a b : string) :
  String c a +:+ b = String c (a +:+ b).
Proof. reflexivity. Qed.

Lemma app_assoc_str (a b c : string) : (a +:+ b) +:+ c = a +:+ (b +:+ c).
Proof.
  induction a as [|x a IH]; [done|].
  rewrite !append_cons_str. by rewrite IH.
Qed.

Lemma app_empty_r_str (a : string) : a +:+ "" = a.
Proof.
  induction a as [|x a IH]; [done|]. rewrite append_cons_str. by rewrite IH.
Qed.

Lemma app_eq_empty_str (a b : string) : a +:+ b = "" ↔ a = "" ∧ b = "".
Proof.
  destruct a as [|x a]; [rewrite append_nil_str; naive_solver|].
  rewrite append_cons_str. naive_solver.
Qed.

Lemma app_eq_self_str (a b : string) : a +:+ b = a ↔ b = "".
Proof.
  split; [|intros ->; apply app_empty_r_str].
  rewrite <- (app_empty_r_str a) at 2. apply (inj (String.append a)).
Qed.

(** ** Formatting: the rounding of ["%.3f"] *)

(** [round_half_even] is within half a unit of the exact quotient. *)
Lemma round_half_even_nearest (num den : Z) :
  (0 ≤ num)%Z → (0 < den)%Z →
  (2 * Z.abs (num - round_half_even num den * den) ≤ den)%Z.
Proof.
  intros Hnum Hden. unfold round_half_even.
  pose proof (Z.div_mod num den ltac:(lia)) as Hdiv.
  pose proof (Z.mod_pos_bound num den Hden) as Hmod.
  set (q := (num `div` den)%Z) in *. set (r := (num `mod` den)%Z) in *.
  clearbody q r.
  assert (num - q * den = r)%Z as Hq by lia.
  assert (num - (q + 1) * den = r - den)%Z as Hq1 by lia.
  destruct (Z.compare_spec (2 * r) den) as [Hcmp|Hcmp|Hcmp].
  - destruct (Z.even q); rewrite ?Hq, ?Hq1; lia.
  - rewrite Hq. lia.
  - rewrite Hq1. lia.
Qed.

(** The thousandths printed for [m * 2^e] are exact for an integer value
    and within half a thousandth of the value otherwise. *)
Lemma thousandths_nearest (m : positive) (e : Z) :
  ((0 ≤ e → thousandths m e = Z.pos m * 2 ^ e * 1000) ∧
   (e < 0 →
    2 * Z.abs (Z.pos m * 1000 - thousandths m e * 2 ^ (- e)) ≤ 2 ^ (- e)))%Z.
Proof.
  unfold thousandths. split; intros He.
  - by rewrite (proj2 (Z.leb_le 0 e)).
  - rewrite (proj2 (Z.leb_gt 0 e)) by done.
    apply round_half_even_nearest; [lia|].
    apply Z.pow_pos_nonneg; lia.
Qed.

(** ** Capture: [SaveCurrentPosition] *)

Section Capture.

Variable current_position : nat → float.

(** The loop of [SaveCurrentPosition] never raises, keeps three slots, and
    writes exactly the slots that some letter of the sequence names. *)
Lemma capture_loop (axes : list string) :
  ∀ (saved : list (option float)) (g : list string),
    length saved = 3 →
    ∃ saved',
      for_in axes tt (λ _ axis,
        if decide (is_Some (XYZ_TO_INDEX !! axis)) then
          i ← dict_getitem XYZ_TO_INDEX axis;
          saved ← get_saved_position;
          saved' ← list_setitem saved i (Some (current_position i));
          set_saved_position saved'
        else mret tt) {| _saved_position := saved; gcode := g |}
      = (Return tt, {| _saved_position := saved'; gcode := g |}) ∧
      length saved' = 3 ∧
      ∀ j, saved' !! j =
           if existsb (λ axis, bool_decide (XYZ_TO_INDEX !! axis = Some j)) axes
           then Some (Some (current_position j)) else saved !! j.
Proof.
  induction axes as [|axis axes IH]; intros saved g Hlen.
  { exists saved. by split_and!. }
  rewrite for_in_cons.
  destruct (XYZ_TO_INDEX !! axis) as [i|] eqn:Hi.
  - assert (i < 3) as Hlt by eauto using XYZ_TO_INDEX_lt.
    destruct (IH (<[i:=Some (current_position i)]> saved) g) as (saved' & Hrun & Hlen' & Hget).
    { by rewrite length_insert. }
    exists saved'. split_and!; [|done|].
    + erewrite bind_Return; [exact Hrun|].
      rewrite decide_True by eauto.
      erewrite bind_Return by (by apply dict_getitem_Some).
      erewrite bind_Return by reflexivity.
      erewrite bind_Return by (apply list_setitem_lt; simpl; lia).
      reflexivity.
    + intros j. rewrite Hget. simpl existsb.
      destruct (decide (i = j)) as [->|Hne].
      * rewrite bool_decide_eq_true_2 by done. simpl.
        rewrite list_lookup_insert_eq by lia.
        by destruct (existsb _ _).
      * rewrite bool_decide_eq_false_2 by congruence. simpl.
        by rewrite list_lookup_insert_ne.
  - destruct (IH saved g Hlen) as (saved' & Hrun & Hlen' & Hget).
    exists saved'. split_and!; [|done|].
    + erewrite bind_Return; [exact Hrun|].
      rewrite decide_False by (by intros []).
      reflexivity.
    + intros j. rewrite Hget. simpl existsb.
      rewrite bool_decide_eq_false_2 by congruence. done.
Qed.

(** What a capture does, with the snapshot it leaves by name. *)
Lemma SaveCurrentPosition_captured (self : KlipperSaveRestorePosition)
    (restore_axis : string) :
  SaveCurrentPosition current_position restore_axis self =
  (Return tt,
   {| _saved_position := captured current_position restore_axis;
      gcode := gcode self |}).
Proof.
  unfold SaveCurrentPosition.
  erewrite bind_Return by reflexivity.
  destruct (capture_loop (chars restore_axis) [None; None; None] (gcode self))
    as (saved' & Hrun & Hlen & Hget); [done|].
  simpl gcode. rewrite Hrun. do 2 f_equal.
  apply list_eq. intros j. rewrite Hget. unfold captured, requested.
  destruct j as [|[|[|j]]]; simpl; try by destruct (existsb _ _).
  destruct (existsb _ _) eqn:Hex; [|done].
  apply existsb_exists in Hex as (axis & _ & Hax).
  apply bool_decide_eq_true in Hax. apply XYZ_TO_INDEX_lt in Hax. lia.
Qed.

Lemma captured_lookup (restore_axis : string) (i : nat) :
  i < 3 →
  captured current_position restore_axis !! i =
  Some (if requested i restore_axis then Some (current_position i) else None).
Proof. intros Hi. by destruct i as [|[|[|i]]]; [..|lia]. Qed.

Lemma captured_length (restore_axis : string) :
  length (captured current_position restore_axis) = 3.
Proof. reflexivity. Qed.

(** A slot is asked for by either case of its letter. *)
Lemma requested_letters (restore_axis : string) :
  (requested 0 restore_axis ↔ "x" ∈ chars restore_axis ∨ "X" ∈ chars restore_axis) ∧
  (requested 1 restore_axis ↔ "y" ∈ chars restore_axis ∨ "Y" ∈ chars restore_axis) ∧
  (requested 2 restore_axis ↔ "z" ∈ chars restore_axis ∨ "Z" ∈ chars restore_axis).
Proof.
  unfold requested. split_and!; rewrite Is_true_true, existsb_exists;
    (split;
     [ intros (axis & Hin%list_elem_of_In & Hi%bool_decide_eq_true);
       apply XYZ_TO_INDEX_Some in Hi; naive_solver
     | intros [Hin|Hin]; eexists; (split; [by apply list_elem_of_In|done]) ]).
Qed.

Lemma elem_of_chars (c : ascii) (s : string) :
  String c EmptyString ∈ chars s ↔ c ∈ list_ascii_of_string s.
Proof.
  induction s as [|c' s IH]; simpl.
  - by rewrite !elem_of_nil.
  - rewrite !elem_of_cons, IH. naive_solver.
Qed.

Lemma bool_eq_bool_decide (b : bool) (P : Prop) `{!Decision P} :
  (b ↔ P) → b = bool_decide P.
Proof.
  intros Hb. destruct b; symmetry.
  - apply bool_decide_eq_true, Hb. done.
  - apply bool_decide_eq_false. intros HP. by apply Hb in HP.
Qed.

(** The slots a sequence asks for, read off its characters. *)
Lemma requested_names_axis (restore_axis : string) :
  requested 0 restore_axis = names_axis "x" "X" restore_axis ∧
  requested 1 restore_axis = names_axis "y" "Y" restore_axis ∧
  requested 2 restore_axis = names_axis "z" "Z" restore_axis.
Proof.
  destruct (requested_letters restore_axis) as (H0 & H1 & H2).
  unfold names_axis.
  split_and!; apply bool_eq_bool_decide; rewrite <- !elem_of_chars; done.
Qed.

(** C2.  Whatever the snapshot held before and whatever sequence is
    requested, [SaveCurrentPosition] returns normally and leaves the X slot
    holding the live X coordinate when the sequence has an x or an X
    somewhere, the Y slot the live Y coordinate when it has a y or a Y, the
    Z slot the live Z coordinate when it has a z or a Z, any number of
    times and among any other characters; a slot whose letter the sequence
    does not have ends up unset even if it held a value.  Nothing else of
    the object changes. *)
Theorem SaveCurrentPosition_spec (self : KlipperSaveRestorePosition)
    (restore_axis : string) :
  SaveCurrentPosition current_position restore_axis self =
  (Return tt,
   {| _saved_position :=
        [ if names_axis "x" "X" restore_axis
          then Some (current_position 0) else None;
          if names_axis "y" "Y" restore_axis
          then Some (current_position 1) else None;
          if names_axis "z" "Z" restore_axis
          then Some (current_position 2) else None ];
      gcode := gcode self |}).
Proof.
  rewrite SaveCurrentPosition_captured. unfold captured.
  cbn [fmap list_fmap].
  destruct (requested_names_axis restore_axis) as (-> & -> & ->).
  reflexivity.
Qed.

End Capture.

(** The example of the specification, X = 10.123 and Z = -3.0 captured over
    a snapshot that held Y; and the same axes named in lower case, twice,
    among other characters. *)
Lemma SaveCurrentPosition_spec_witness :
  let live := (λ i, match i with 0 => 10.123 | 1 => 7 | _ => -3 end)%float in
  let self := {| _saved_position := [None; Some 5%float; None]; gcode := [] |} in
  SaveCurrentPosition live "XZ" self =
  (Return tt,
   {| _saved_position := [Some 10.123%float; None; Some (-3)%float];
      gcode := [] |}) ∧
  SaveCurrentPosition live "z, xx q" self =
  (Return tt,
   {| _saved_position := [Some 10.123%float; None; Some (-3)%float];
      gcode := [] |}).
Proof.
  intros live self. split.
  - exact (SaveCurrentPosition_spec live self "XZ").
  - exact (SaveCurrentPosition_spec live self "z, xx q").
Defined.

(** ** Restore: [restore_position] *)

(** The body of the loop of [restore_position]. *)
Local Abbreviation restore_body := (λ (cmd : string) (axis : string),
  i ← dict_getitem XYZ_TO_INDEX axis;
  saved ← get_saved_position;
  slot ← list_getitem saved i;
  match slot with
  | Some value => mret (cmd +:+ " " +:+ axis +:+ format_3f value)
  | None => mret cmd
  end).

(** One round on a recognized letter appends the term of that axis. *)
Lemma restore_body_recognized (cmd axis : string) self :
  is_Some (XYZ_TO_INDEX !! axis) →
  length (_saved_position self) = 3 →
  restore_body cmd axis self =
  (Return (cmd +:+ match slot_of (_saved_position self) axis with
                   | Some value => " " +:+ axis +:+ format_3f value
                   | None => ""
                   end), self).
Proof.
  intros [i Hi] Hlen. unfold slot_of. rewrite Hi. simpl.
  assert (i < 3) as Hlt by eauto using XYZ_TO_INDEX_lt.
  destruct (lookup_lt_is_Some_2 (_saved_position self) i) as [slot Hslot]; [lia|].
  erewrite bind_Return by (by apply dict_getitem_Some).
  erewrite bind_Return by reflexivity.
  erewrite bind_Return by (by apply list_getitem_Some).
  rewrite Hslot. simpl.
  destruct slot; [done|]. by rewrite app_empty_r_str.
Qed.

(** One round on any other text raises [KeyError]. *)
Lemma restore_body_unrecognized (cmd axis : string) self :
  XYZ_TO_INDEX !! axis = None →
  restore_body cmd axis self = (Raise (KeyError axis), self).
Proof.
  intros Hi. cbv beta.
  by erewrite bind_Raise by (by apply dict_getitem_None).
Qed.

(** The loop does not touch the object, whatever its outcome. *)
Lemma restore_loop_readonly (axes : list string) (cmd : string) :
  readonly (for_in axes cmd restore_body).
Proof.
  apply readonly_for_in. intros local axis.
  apply readonly_bind; [apply readonly_dict_getitem|intros i].
  apply readonly_bind; [apply readonly_get_saved_position|intros saved].
  apply readonly_bind; [apply readonly_list_getitem|intros [value|]];
    apply readonly_ret.
Qed.

(** On recognized letters the loop builds ["G0"] and the axis terms. *)
Lemma restore_loop_recognized (axes : list string) :
  ∀ (cmd : string) self,
    Forall (λ axis, is_Some (XYZ_TO_INDEX !! axis)) axes →
    length (_saved_position self) = 3 →
    for_in axes cmd restore_body self =
    (Return (cmd +:+ axis_terms (_saved_position self) axes), self).
Proof.
  induction axes as [|axis axes IH]; intros cmd self Hrec Hlen.
  { simpl. by rewrite app_empty_r_str. }
  apply Forall_cons in Hrec as [Haxis Hrec].
  rewrite for_in_cons.
  erewrite bind_Return by (by apply restore_body_recognized).
  rewrite IH by done. simpl axis_terms. by rewrite app_assoc_str.
Qed.

(** The first entry that is not a letter of the table stops the loop. *)
Lemma restore_loop_unrecognized (pre post : list string) (axis : string) :
  ∀ (cmd : string) self,
    Forall (λ axis, is_Some (XYZ_TO_INDEX !! axis)) pre →
    XYZ_TO_INDEX !! axis = None →
    length (_saved_position self) = 3 →
    for_in (pre ++ axis :: post) cmd restore_body self =
    (Raise (KeyError axis), self).
Proof.
  induction pre as [|a pre IH]; intros cmd self Hrec Hbad Hlen; simpl app.
  { rewrite for_in_cons.
    by erewrite bind_Raise by (by apply restore_body_unrecognized). }
  apply Forall_cons in Hrec as [Ha Hrec].
  rewrite for_in_cons.
  erewrite bind_Return by (by apply restore_body_recognized).
  by apply IH.
Qed.

Lemma axis_terms_empty (saved : list (option float)) (axes : list string) :
  axis_terms saved axes = "" ↔ Forall (λ axis, slot_of saved axis = None) axes.
Proof.
  induction axes as [|axis axes IH]; simpl; [by split|].
  rewrite app_eq_empty_str, Forall_cons, IH.
  destruct (slot_of saved axis); [|naive_solver].
  rewrite append_cons_str. naive_solver.
Qed.

Section Restore.

Variable run_script_from_command : string → option exn.

(** What [restore_position] does on a sequence of recognized letters. *)
Lemma restore_position_recognized self (axis_to_restore : string)
    (speed : option Z) :
  Forall (λ axis, is_Some (XYZ_TO_INDEX !! axis)) (chars axis_to_restore) →
  snapshot_inv self →
  restore_position run_script_from_command axis_to_restore speed self =
  let terms := axis_terms (_saved_position self) (chars axis_to_restore) in
  if decide (terms = "") then (Return tt, self)
  else
    let cmd := "G0" +:+ terms +:+ feed_term speed in
    (match run_script_from_command cmd with
     | None => Return tt
     | Some e => Raise (Exception ("Error restoring position: " +:+ str e) e)
     end,
     {| _saved_position := _saved_position self; gcode := gcode self ++ [cmd] |}).
Proof.
  intros Hrec Hlen. unfold restore_position, try_except.
  erewrite bind_Return by (by apply restore_loop_recognized).
  cbv zeta. destruct (decide (axis_terms _ _ = "")) as [Heq|Hne].
  - rewrite Heq, app_empty_r_str. rewrite decide_False by naive_solver.
    by destruct self.
  - rewrite decide_True by (by rewrite app_eq_self_str).
    assert ((if truthy speed
             then ("G0" +:+ axis_terms (_saved_position self) (chars axis_to_restore))
                  +:+ " F" +:+ format_i (default 0%Z speed)
             else "G0" +:+ axis_terms (_saved_position self) (chars axis_to_restore))
            = "G0" +:+ axis_terms (_saved_position self) (chars axis_to_restore)
                   +:+ feed_term speed) as ->.
    { destruct speed as [n|]; simpl.
      - destruct (n =? 0)%Z; simpl.
        + by rewrite app_empty_r_str.
        + by rewrite app_assoc_str.
      - by rewrite app_empty_r_str. }
    unfold gcode_run_script_from_command.
    by destruct (run_script_from_command _).
Qed.

(** A sequence with an entry outside the table makes [restore_position]
    raise, the [KeyError] of the first such entry as the cause, and hands
    nothing to the executor. *)
Lemma restore_position_unrecognized self (pre post : list string)
    (axis axis_to_restore : string) (speed : option Z) :
  chars axis_to_restore = pre ++ axis :: post →
  Forall (λ axis, is_Some (XYZ_TO_INDEX !! axis)) pre →
  XYZ_TO_INDEX !! axis = None →
  snapshot_inv self →
  restore_position run_script_from_command axis_to_restore speed self =
  (Raise (Exception ("Error restoring position: " +:+ repr axis) (KeyError axis)),
   self).
Proof.
  intros Hsplit Hrec Hbad Hlen. unfold restore_position, try_except.
  rewrite Hsplit.
  by erewrite bind_Raise by (by apply restore_loop_unrecognized).
Qed.

(** A feed rate of 0 is the same call as no feed rate. *)
Lemma restore_position_speed_0 self (axis_to_restore : string) :
  restore_position run_script_from_command axis_to_restore (Some 0%Z) self =
  restore_position run_script_from_command axis_to_restore None self.
Proof. reflexivity. Qed.

(** The shapes of a run of [restore_position]: the snapshot is never
    written; either nothing is handed to the executor, or exactly one
    script is, and then the outcome is the executor's, a failure wrapped. *)
Lemma restore_position_cases self (axis_to_restore : string) (speed : option Z) :
  ∃ outcome g,
    restore_position run_script_from_command axis_to_restore speed self =
    (outcome, {| _saved_position := _saved_position self; gcode := g |}) ∧
    (g = gcode self ∨
     ∃ cmd, g = gcode self ++ [cmd] ∧
            outcome =
            match run_script_from_command cmd with
            | None => Return tt
            | Some e => Raise (Exception ("Error restoring position: " +:+ str e) e)
            end).
Proof.
  unfold restore_position, try_except.
  pose proof (restore_loop_readonly (chars axis_to_restore) "G0" self) as Hro.
  remember (for_in (chars axis_to_restore) "G0" restore_body) as loop eqn:Hloop.
  clear Hloop. unfold mbind, M_bind.
  destruct (loop self) as [[cmd|e] self'] eqn:Hrun; simpl in Hro; subst self'.
  - case_decide.
    + unfold gcode_run_script_from_command.
      destruct (run_script_from_command _) eqn:Hscript;
        eexists _, _; (split; [reflexivity|]); right; eexists;
        (split; [reflexivity|]); by rewrite Hscript.
    + mret_unfold. exists (Return tt), (gcode self).
      split; [by destruct self|by left].
  - exists (Raise (Exception ("Error restoring position: " +:+ str e) e)),
      (gcode self).
    split; [by destruct self|by left].
Qed.

End Restore.

(** ** Set from a payload: [cmd_KTC_SAVE_POSITION] *)

(** [offset_from_gcmd] only works on the list it is given. *)
Lemma offset_from_gcmd_readonly (gcmd : GCodeCommand)
    (offset : list (option float)) :
  readonly (offset_from_gcmd gcmd offset).
Proof.
  apply readonly_for_in. intros local axis.
  destruct (get_float gcmd axis), (get_float gcmd (axis +:+ "_ADJUST"));
    repeat first
      [ apply readonly_ret | apply readonly_dict_getitem
      | apply readonly_list_getitem | apply readonly_list_setitem
      | apply readonly_float_add | (apply readonly_bind; [|intros ?]) ].
Qed.

(** What [cmd_KTC_SAVE_POSITION] does, for every payload and every object:
    the helper starts from a fresh [[None, None, None]], so an adjustment
    without an absolute value meets [None] and raises, and otherwise the
    snapshot becomes the absolute values of the payload, axis by axis. *)
Lemma cmd_KTC_SAVE_POSITION_cases (gcmd : GCodeCommand) self :
  cmd_KTC_SAVE_POSITION gcmd self =
  if existsb (adjust_only gcmd) ["X"; "Y"; "Z"]
  then
    (Raise (CommandError
       "KTC_SAVE_POSITION: Error: unsupported operand type(s) for +=: 'NoneType' and 'float'"
       (TypeError "unsupported operand type(s) for +=: 'NoneType' and 'float'")),
     self)
  else
    (Return tt,
     {| _saved_position := get_float gcmd <$> ["X"; "Y"; "Z"];
        gcode := gcode self |}).
Proof.
  unfold cmd_KTC_SAVE_POSITION, offset_from_gcmd, adjust_only, try_except.
  cbn [existsb for_in fmap list_fmap].
  change ("X" +:+ "_ADJUST") with "X_ADJUST".
  change ("Y" +:+ "_ADJUST") with "Y_ADJUST".
  change ("Z" +:+ "_ADJUST") with "Z_ADJUST".
  destruct (get_float gcmd "X") as [x|], (get_float gcmd "X_ADJUST") as [dx|],
    (get_float gcmd "Y") as [y|], (get_float gcmd "Y_ADJUST") as [dy|],
    (get_float gcmd "Z") as [z|], (get_float gcmd "Z_ADJUST") as [dz|];
    reflexivity.
Qed.

Lemma axis_XYZ (axis : string) :
  axis ∈ ["X"; "Y"; "Z"] → axis = "X" ∨ axis = "Y" ∨ axis = "Z".
Proof. rewrite !elem_of_cons, elem_of_nil. tauto. Qed.

Lemma get_float_drop_adjust (axis name : string) (gcmd : GCodeCommand) :
  name ≠ axis +:+ "_ADJUST" →
  get_float (drop_adjust axis gcmd) name = get_float gcmd name.
Proof. intros Hne. unfold get_float, drop_adjust. simpl. by rewrite lookup_delete_ne. Qed.

(** An adjustment beside an absolute value of the same axis changes
    nothing of the call. *)
Lemma cmd_KTC_SAVE_POSITION_drop_adjust (gcmd : GCodeCommand) self
    (axis : string) :
  axis ∈ ["X"; "Y"; "Z"] →
  is_Some (get_float gcmd axis) →
  cmd_KTC_SAVE_POSITION (drop_adjust axis gcmd) self =
  cmd_KTC_SAVE_POSITION gcmd self.
Proof.
  intros Haxis [pos Hpos]. rewrite !cmd_KTC_SAVE_POSITION_cases.
  assert (∀ name, name ∈ ["X"; "Y"; "Z"] →
            get_float (drop_adjust axis gcmd) name = get_float gcmd name) as Habs.
  { intros name Hname. apply get_float_drop_adjust.
    apply axis_XYZ in Haxis, Hname.
    destruct Haxis as [->|[->| ->]], Hname as [->|[->| ->]]; done. }
  assert (∀ name, name ∈ ["X"; "Y"; "Z"] →
            adjust_only (drop_adjust axis gcmd) name = adjust_only gcmd name) as Hadj.
  { intros name Hname. unfold adjust_only. rewrite Habs by done.
    destruct (decide (name = axis)) as [->|Hne].
    - rewrite Hpos. done.
    - rewrite get_float_drop_adjust; [done|].
      apply axis_XYZ in Haxis, Hname.
    destruct Haxis as [->|[->| ->]], Hname as [->|[->| ->]]; done. }
  cbn [existsb fmap list_fmap].
  rewrite !Habs, !Hadj by set_solver. done.
Qed.

(** An adjustment without an absolute value raises, whatever is stored. *)
Lemma cmd_KTC_SAVE_POSITION_adjust_only (gcmd : GCodeCommand) self
    (axis : string) :
  axis ∈ ["X"; "Y"; "Z"] →
  adjust_only gcmd axis = true →
  cmd_KTC_SAVE_POSITION gcmd self =
  (Raise (CommandError
     "KTC_SAVE_POSITION: Error: unsupported operand type(s) for +=: 'NoneType' and 'float'"
     (TypeError "unsupported operand type(s) for +=: 'NoneType' and 'float'")),
   self).
Proof.
  intros Haxis Hadj. rewrite cmd_KTC_SAVE_POSITION_cases.
  assert (existsb (adjust_only gcmd) ["X"; "Y"; "Z"] = true) as ->; [|done].
  apply existsb_exists. exists axis. split; [|done].
  by apply list_elem_of_In.
Qed.

(** A payload of absolute values only replaces the whole snapshot: the
    slot of an axis it does not mention is unset, whatever was stored. *)
Lemma cmd_KTC_SAVE_POSITION_absolute (gcmd : GCodeCommand) self :
  (∀ axis, axis ∈ ["X"; "Y"; "Z"] → get_float gcmd (axis +:+ "_ADJUST") = None) →
  cmd_KTC_SAVE_POSITION gcmd self =
  (Return tt,
   {| _saved_position := get_float gcmd <$> ["X"; "Y"; "Z"];
      gcode := gcode self |}).
Proof.
  intros Habs. rewrite cmd_KTC_SAVE_POSITION_cases.
  assert (existsb (adjust_only gcmd) ["X"; "Y"; "Z"] = false) as ->; [|done].
  apply not_true_is_false. intros (axis & Hin & Hadj)%existsb_exists.
  apply list_elem_of_In in Hin. unfold adjust_only in Hadj.
  rewrite (Habs axis Hin) in Hadj.
  apply andb_true_iff in Hadj as [_ Hsome%bool_decide_eq_true].
  by destruct Hsome.
Qed.

(** ** The code on the examples of the specification *)

Example capture_X_Z :
  SaveCurrentPosition
    (λ i, match i with 0 => 10.123 | 1 => 7 | _ => -3 end)%float "XZ"
    {| _saved_position := [None; Some 5%float; None]; gcode := [] |} =
  (Return tt,
   {| _saved_position := [Some 10.123%float; None; Some (-3)%float];
      gcode := [] |}).
Proof. vm_compute. reflexivity. Qed.

Example restore_of_no_axis :
  restore_position (λ _, None) "" (Some 3000%Z)
    {| _saved_position := [Some 1%float; None; None]; gcode := [] |} =
  (Return tt, {| _saved_position := [Some 1%float; None; None]; gcode := [] |}).
Proof. vm_compute. reflexivity. Qed.

Example restore_of_unset_axis :
  restore_position (λ _, None) "Y" None
    {| _saved_position := [Some 1%float; None; None]; gcode := [] |} =
  (Return tt, {| _saved_position := [Some 1%float; None; None]; gcode := [] |}).
Proof. vm_compute. reflexivity. Qed.

Example restore_lower_case_negative_feed :
  gcode (restore_position (λ _, None) "zx" (Some (-5)%Z)
           {| _saved_position := [Some 1%float; None; Some 2.5%float];
              gcode := ["G28"] |}).2 =
  ["G28"; "G0 z2.500 x1.000 F-5"].
Proof. vm_compute. reflexivity. Qed.

Example save_current_position_command :
  cmd_KTC_SAVE_CURRENT_POSITION (λ _, 1.5%float)
    {| float_params := ∅; AXIS := Some "X, z"; SPEED := None |} __init__ =
  (Return tt,
   {| _saved_position := [Some 1.5%float; None; Some 1.5%float]; gcode := [] |}).
Proof. vm_compute. reflexivity. Qed.

Example restore_position_command :
  cmd_KTC_RESTORE_POSITION (λ _, None)
    {| float_params := ∅; AXIS := Some " ZX "; SPEED := Some 3000%Z |}
    {| _saved_position := [Some 1%float; None; Some 2%float]; gcode := [] |} =
  (Return tt,
   {| _saved_position := [Some 1%float; None; Some 2%float];
      gcode := ["G0 Z2.000 X1.000 F3000"] |}).
Proof. vm_compute. reflexivity. Qed.

Example restore_position_command_inner_blank :
  cmd_KTC_RESTORE_POSITION (λ _, None)
    {| float_params := ∅; AXIS := Some "Z X"; SPEED := None |}
    {| _saved_position := [Some 1%float; None; Some 2%float]; gcode := [] |} =
  (Raise (CommandError ""
            (Exception "Error restoring position: ' '" (KeyError " "))),
   {| _saved_position := [Some 1%float; None; Some 2%float]; gcode := [] |}).
Proof. vm_compute. reflexivity. Qed.

Example format_3f_examples :
  format_3f 10.123 = "10.123" ∧ format_3f (-3) = "-3.000" ∧
  format_3f 0.0625 = "0.062" ∧ format_3f 0.0005 = "0.001" ∧
  format_3f (-0.0001) = "-0.000" ∧ format_3f 10.1234 = "10.123" ∧
  format_3f nan = "nan" ∧ format_3f neg_infinity = "-inf".
Proof. vm_compute. repeat split. Qed.

(** ** The properties of the specification *)

(** The restore on letters of the table.  For every snapshot of three
    slots, every sequence made of letters of the table and every feed rate
    or none, [restore_position] builds the script from ["G0"] and, in the
    order given, one term (blank, letter, value with three decimals) per
    requested axis whose slot holds a value, skipping the others.  When no
    term was appended it returns without handing anything to the executor.
    Otherwise it appends the integer feed term for a feed rate that is not
    0, hands the script to the executor exactly once, and never writes the
    snapshot. *)
Theorem restore_position_spec (run_script_from_command : string → option exn)
    (self : KlipperSaveRestorePosition) (axis_to_restore : string)
    (speed : option Z) :
  snapshot_inv self →
  Forall (λ axis, is_Some (XYZ_TO_INDEX !! axis)) (chars axis_to_restore) →
  let terms := axis_terms (_saved_position self) (chars axis_to_restore) in
  let cmd := "G0" +:+ terms +:+ feed_term speed in
  let result := restore_position run_script_from_command axis_to_restore speed self in
  (terms = "" ↔
   Forall (λ axis, slot_of (_saved_position self) axis = None)
     (chars axis_to_restore)) ∧
  (terms = "" → result = (Return tt, self)) ∧
  (terms ≠ "" →
   _saved_position result.2 = _saved_position self ∧
   gcode result.2 = gcode self ++ [cmd] ∧
   result.1 = match run_script_from_command cmd with
              | None => Return tt
              | Some e => Raise (Exception ("Error restoring position: " +:+ str e) e)
              end).
Proof.
  intros Hinv Hrec terms cmd result. subst result.
  rewrite (restore_position_recognized _ _ _ _ Hrec Hinv). cbv zeta.
  fold terms. fold cmd. split; [|split].
  - apply axis_terms_empty.
  - intros Hnil. by rewrite decide_True.
  - intros Hterms. by rewrite decide_False.
Qed.

(** The example of the specification: snapshot X = 1.0, Z = 2.0, axes
    Z then X, feed rate 3000. *)
Lemma restore_position_spec_witness :
  let self := {| _saved_position := [Some 1%float; None; Some 2%float];
                 gcode := [] |} in
  let result := restore_position (λ _, None) "ZX" (Some 3000%Z) self in
  _saved_position result.2 = _saved_position self ∧
  gcode result.2 = ["G0 Z2.000 X1.000 F3000"] ∧
  result.1 = Return tt.
Proof.
  intros self result.
  assert (snapshot_inv self) as Hinv by reflexivity.
  assert (Forall (λ axis, is_Some (XYZ_TO_INDEX !! axis)) (chars "ZX")) as Hrec.
  { repeat constructor; vm_compute; eauto. }
  destruct (restore_position_spec (λ _, None) self "ZX" (Some 3000%Z) Hinv Hrec)
    as (_ & _ & Hcmd).
  apply Hcmd. vm_compute. discriminate.
Defined.

(** On letters of the table, with a feed rate that is not 0 or with none,
    the code hands the executor the command of the specification's
    wording, and nothing when the wording has no command. *)
Lemma restore_position_as_claimed
    (run_script_from_command : string → option exn)
    (self : KlipperSaveRestorePosition) (axis_to_restore : string)
    (speed : option Z) :
  snapshot_inv self →
  Forall (λ axis, is_Some (XYZ_TO_INDEX !! axis)) (chars axis_to_restore) →
  speed ≠ Some 0%Z →
  gcode (restore_position run_script_from_command axis_to_restore speed self).2
  = gcode self ++
    option_list (claimed_restore_command (_saved_position self)
                   (chars axis_to_restore) speed).
Proof.
  intros Hinv Hrec Hspeed.
  rewrite restore_position_recognized by done. cbv zeta.
  unfold claimed_restore_command.
  destruct (decide (axis_terms _ _ = "")) as [Hnil|Hterms]; simpl.
  - by rewrite app_nil_r.
  - do 3 f_equal. destruct speed as [n|]; simpl; [|done].
    destruct (n =? 0)%Z eqn:Hn; [|done].
    apply Z.eqb_eq in Hn. by subst n.
Qed.

(** C1 (the code at the failing input).  With X = 1.0 and Z = 2.0 stored,
    the sequence X, A, Z and the feed rate 3000, the wording of the
    specification skips A, which has no stored value, and gives the command
    of X and Z with the feed term; the code looks A up in the table, which
    is a [KeyError], and raises with nothing handed to the executor. *)
Theorem restore_position_stops_at_unknown_entry :
  let self := {| _saved_position := [Some 1%float; None; Some 2%float];
                 gcode := [] |} in
  claimed_restore_command (_saved_position self) (chars "XAZ") (Some 3000%Z)
  = Some "G0 X1.000 Z2.000 F3000" ∧
  restore_position (λ _, None) "XAZ" (Some 3000%Z) self =
  (Raise (Exception "Error restoring position: 'A'" (KeyError "A")), self).
Proof. vm_compute. split; reflexivity. Qed.

(** C3 (the code at the failing input).  With X = 1.0, Y = 2.0, Z = 3.0
    stored, the payload that gives only the absolute value X = 9.0 leaves
    the status with X = 9.0 and with Y and Z unset: the axes the payload
    does not mention are reset, where the help text of the command and the
    claim say they keep their values. *)
Theorem cmd_KTC_SAVE_POSITION_resets_unmentioned :
  let self := {| _saved_position := [Some 1%float; Some 2%float; Some 3%float];
                 gcode := [] |} in
  let gcmd := {| float_params := {[ "X" := 9%float ]};
                 AXIS := None; SPEED := None |} in
  (cmd_KTC_SAVE_POSITION gcmd;; get_status) self =
  (Return {[ "saved_position" := [Some 9%float; None; None] ]},
   {| _saved_position := [Some 9%float; None; None]; gcode := [] |}).
Proof. vm_compute. reflexivity. Qed.

(** C4 (the code at the failing input).  With X = 5.0 stored, the payload
    that adjusts X by 2.5 raises the command error, caused by the
    [TypeError] of adding to [None], and the snapshot still holds X = 5.0:
    the stored value never reaches the addition, where the claim says the
    slot becomes 7.5. *)
Theorem cmd_KTC_SAVE_POSITION_adjust_raises :
  let self := {| _saved_position := [Some 5%float; None; None]; gcode := [] |} in
  let gcmd := {| float_params := {[ "X_ADJUST" := 2.5%float ]};
                 AXIS := None; SPEED := None |} in
  cmd_KTC_SAVE_POSITION gcmd self =
  (Raise (CommandError
     "KTC_SAVE_POSITION: Error: unsupported operand type(s) for +=: 'NoneType' and 'float'"
     (TypeError "unsupported operand type(s) for +=: 'NoneType' and 'float'")),
   self).
Proof. vm_compute. reflexivity. Qed.

(** C5 (the code at the failing input).  On the sequence X, A the capture
    returns normally with X captured, and the restore raises: the lookup of
    A in the table is a [KeyError], wrapped, and nothing is handed to the
    executor, where the claim says the entry is ignored and X restored. *)
Theorem restore_position_unrecognized_raises :
  let self := {| _saved_position := [Some 1%float; None; None]; gcode := [] |} in
  SaveCurrentPosition (λ _, 1%float) "XA" __init__ = (Return tt, self) ∧
  restore_position (λ _, None) "XA" None self =
  (Raise (Exception "Error restoring position: 'A'" (KeyError "A")), self).
Proof. vm_compute. split; reflexivity. Qed.

(** C6.  Whenever [restore_position] hands a script to the executor and the
    executor fails on it with [e], the call raises the exception with the
    text ["Error restoring position: " + str(e)] whose cause is [e] itself,
    and the three slots of the snapshot are as they were. *)
Theorem restore_position_executor_failure
    (run_script_from_command : string → option exn)
    (self : KlipperSaveRestorePosition) (axis_to_restore : string)
    (speed : option Z) (cmd : string) (e : exn) :
  let result := restore_position run_script_from_command axis_to_restore speed self in
  gcode result.2 = gcode self ++ [cmd] →
  run_script_from_command cmd = Some e →
  result.1 = Raise (Exception ("Error restoring position: " +:+ str e) e) ∧
  _saved_position result.2 = _saved_position self.
Proof.
  intros result Hgcode Hfail. subst result.
  destruct (restore_position_cases run_script_from_command self
              axis_to_restore speed) as (outcome & g & Heq & Hcases).
  rewrite Heq in *. simpl in *. split; [|done].
  destruct Hcases as [->|(cmd' & -> & ->)].
  - apply (f_equal length) in Hgcode. rewrite length_app in Hgcode.
    simpl in Hgcode. lia.
  - apply app_inv_head in Hgcode as [= ->]. by rewrite Hfail.
Qed.

Lemma restore_position_executor_failure_witness :
  let self := {| _saved_position := [Some 1%float; None; None]; gcode := [] |} in
  let run := λ _ : string, Some (HostError "Move out of range") in
  let result := restore_position run "X" None self in
  result.1 = Raise (Exception "Error restoring position: Move out of range"
                      (HostError "Move out of range")) ∧
  _saved_position result.2 = [Some 1%float; None; None].
Proof.
  intros self run result.
  apply (restore_position_executor_failure run self "X" None "G0 X1.000"
           (HostError "Move out of range")).
  - vm_compute. reflexivity.
  - reflexivity.
Defined.

(** C7 (as amended).  For every live position, every executor and every
    object, a capture of X, Y, Z followed at once by a restore of X, Y, Z
    with no feed rate stores the three live coordinates and hands the
    executor exactly one script: G0, then X, Y and Z each with its live
    coordinate rounded to three decimals. *)
Theorem restore_after_capture (current_position : nat → float)
    (run_script_from_command : string → option exn)
    (self : KlipperSaveRestorePosition) :
  let cmd := "G0 X" +:+ format_3f (current_position 0) +:+
             " Y" +:+ format_3f (current_position 1) +:+
             " Z" +:+ format_3f (current_position 2) in
  capture_then_restore current_position run_script_from_command self =
  (match run_script_from_command cmd with
   | None => Return tt
   | Some e => Raise (Exception ("Error restoring position: " +:+ str e) e)
   end,
   {| _saved_position := [Some (current_position 0); Some (current_position 1);
                          Some (current_position 2)];
      gcode := gcode self ++ [cmd] |}).
Proof.
  intros cmd. unfold capture_then_restore.
  erewrite bind_Return by apply SaveCurrentPosition_captured.
  change (captured current_position "XYZ")
    with [Some (current_position 0); Some (current_position 1);
          Some (current_position 2)].
  rewrite restore_position_recognized;
    [|repeat constructor; vm_compute; eauto|reflexivity].
  cbv zeta. simpl _saved_position. simpl gcode.
  change (axis_terms _ (chars "XYZ"))
    with (" X" +:+ format_3f (current_position 0) +:+
          " Y" +:+ format_3f (current_position 1) +:+
          " Z" +:+ format_3f (current_position 2) +:+ "").
  rewrite decide_False by done.
  unfold feed_term. rewrite !app_empty_r_str. reflexivity.
Qed.

(** C7 (as stated) fails: after a capture of X = 10.1234 the script is,
    character for character, the script after a capture of X = 10.123, so
    no reading of scripts gives back the exact captured value. *)
Lemma restore_after_capture_not_exact :
  let p := λ i : nat, match i with 0 => 10.1234%float | _ => 0%float end in
  let q := λ i : nat, match i with 0 => 10.123%float | _ => 0%float end in
  p 0 ≠ q 0 ∧
  gcode (capture_then_restore p (λ _, None) __init__).2
  = ["G0 X10.123 Y0.000 Z0.000"] ∧
  gcode (capture_then_restore q (λ _, None) __init__).2
  = ["G0 X10.123 Y0.000 Z0.000"] ∧
  ¬ exact_round_trip.
Proof.
  intros p q.
  assert (p 0 ≠ q 0) as Hne.
  { intros H. apply (f_equal Prim2SF) in H. vm_compute in H. discriminate. }
  assert (gcode (capture_then_restore p (λ _, None) __init__).2
          = ["G0 X10.123 Y0.000 Z0.000"]) as Hp by (vm_compute; reflexivity).
  assert (gcode (capture_then_restore q (λ _, None) __init__).2
          = ["G0 X10.123 Y0.000 Z0.000"]) as Hq by (vm_compute; reflexivity).
  split_and!; [done..|].
  intros [commanded Hexact]. apply Hne.
  rewrite <- (Hexact p (λ _, None) __init__ _ Hp 0) by lia.
  rewrite <- (Hexact q (λ _, None) __init__ _ Hq 0) by lia.
  reflexivity.
Qed.

(** The absolute value before the adjustment.  When a payload gives both
    an absolute value and an adjustment for the same axis, the adjustment
    of that axis plays no part: the call is the call on the payload without
    it; and when the call returns, which it does when no axis has an
    adjustment alone, the slot of the axis holds the absolute value. *)
Theorem cmd_KTC_SAVE_POSITION_absolute_wins (gcmd : GCodeCommand)
    (self : KlipperSaveRestorePosition) (axis : string) (pos adjust : float) :
  axis ∈ ["X"; "Y"; "Z"] →
  get_float gcmd axis = Some pos →
  get_float gcmd (axis +:+ "_ADJUST") = Some adjust →
  existsb (adjust_only gcmd) ["X"; "Y"; "Z"] = false →
  cmd_KTC_SAVE_POSITION gcmd self
  = cmd_KTC_SAVE_POSITION (drop_adjust axis gcmd) self ∧
  ∃ saved,
    cmd_KTC_SAVE_POSITION gcmd self =
    (Return tt, {| _saved_position := saved; gcode := gcode self |}) ∧
    slot_of saved axis = Some pos.
Proof.
  intros Haxis Hpos Hadj Hcomplete. split.
  { symmetry. apply cmd_KTC_SAVE_POSITION_drop_adjust; [done|by eexists]. }
  eexists. split.
  { rewrite cmd_KTC_SAVE_POSITION_cases, Hcomplete. reflexivity. }
  apply axis_XYZ in Haxis.
  destruct Haxis as [->|[->| ->]]; cbn [fmap list_fmap]; unfold slot_of;
    [rewrite XYZ_TO_INDEX_X|rewrite XYZ_TO_INDEX_Y|rewrite XYZ_TO_INDEX_Z];
    simpl; by rewrite Hpos.
Qed.

Lemma cmd_KTC_SAVE_POSITION_absolute_wins_witness :
  let self := {| _saved_position := [Some 5%float; None; None]; gcode := [] |} in
  let gcmd := {| float_params := {[ "X" := 1%float; "X_ADJUST" := 2%float ]};
                 AXIS := None; SPEED := None |} in
  cmd_KTC_SAVE_POSITION gcmd self
  = cmd_KTC_SAVE_POSITION (drop_adjust "X" gcmd) self ∧
  ∃ saved,
    cmd_KTC_SAVE_POSITION gcmd self =
    (Return tt, {| _saved_position := saved; gcode := gcode self |}) ∧
    slot_of saved "X" = Some 1%float.
Proof.
  intros self gcmd.
  apply (cmd_KTC_SAVE_POSITION_absolute_wins gcmd self "X" 1%float 2%float).
  - set_solver.
  - vm_compute. reflexivity.
  - vm_compute. reflexivity.
  - vm_compute. reflexivity.
Defined.

(** C8 (the code at the failing input).  With Y = 5.0 stored, the payload
    that gives X the absolute value 1.0 and the adjustment 2.0, and adjusts
    Y by 3.0, raises the command error, caused by the [TypeError] of adding
    to [None], and the snapshot stays as it was: slot X is not set to the
    absolute value 1.0, where the claim says it is (and Y would be 8.0). *)
Theorem cmd_KTC_SAVE_POSITION_absolute_lost :
  let self := {| _saved_position := [None; Some 5%float; None]; gcode := [] |} in
  let gcmd := {| float_params := {[ "X" := 1%float; "X_ADJUST" := 2%float;
                                    "Y_ADJUST" := 3%float ]};
                 AXIS := None; SPEED := None |} in
  cmd_KTC_SAVE_POSITION gcmd self =
  (Raise (CommandError
     "KTC_SAVE_POSITION: Error: unsupported operand type(s) for +=: 'NoneType' and 'float'"
     (TypeError "unsupported operand type(s) for +=: 'NoneType' and 'float'")),
   self) ∧
  slot_of (_saved_position (cmd_KTC_SAVE_POSITION gcmd self).2) "X" = None.
Proof. vm_compute. split; reflexivity. Qed.

(** C9.  The snapshot has exactly three slots, each a float or unset, when
    the object is constructed, and every operation started on such an
    object leaves such an object, whether it returns or raises: the set
    from a payload, the capture, the restore, the status query, and the
    two command handlers over capture and restore. *)
Theorem snapshot_inv_preserved (current_position : nat → float)
    (run_script_from_command : string → option exn)
    (self : KlipperSaveRestorePosition) (gcmd : GCodeCommand)
    (axes : string) (speed : option Z) :
  snapshot_inv self →
  snapshot_inv __init__ ∧
  snapshot_inv (cmd_KTC_SAVE_POSITION gcmd self).2 ∧
  snapshot_inv (SaveCurrentPosition current_position axes self).2 ∧
  snapshot_inv (restore_position run_script_from_command axes speed self).2 ∧
  snapshot_inv (get_status self).2 ∧
  snapshot_inv (cmd_KTC_SAVE_CURRENT_POSITION current_position gcmd self).2 ∧
  snapshot_inv (cmd_KTC_RESTORE_POSITION run_script_from_command gcmd self).2.
Proof.
  intros Hinv. split_and!.
  - reflexivity.
  - rewrite cmd_KTC_SAVE_POSITION_cases. by destruct (existsb _ _).
  - by rewrite SaveCurrentPosition_captured.
  - destruct (restore_position_cases run_script_from_command self axes speed)
      as (outcome & g & -> & _). exact Hinv.
  - exact Hinv.
  - unfold cmd_KTC_SAVE_CURRENT_POSITION.
    by rewrite SaveCurrentPosition_captured.
  - unfold cmd_KTC_RESTORE_POSITION, try_except.
    destruct (restore_position_cases run_script_from_command self
                (strip (default "XYZ" (AXIS gcmd))) (SPEED gcmd))
      as (outcome & g & -> & _).
    destruct outcome; exact Hinv.
Qed.

Lemma snapshot_inv_preserved_witness :
  let gcmd := {| float_params := {[ "Y" := 4%float ]};
                 AXIS := Some "X Z"; SPEED := Some 1500%Z |} in
  snapshot_inv __init__ ∧
  snapshot_inv (cmd_KTC_SAVE_POSITION gcmd __init__).2 ∧
  snapshot_inv (SaveCurrentPosition (λ _, 1%float) "xz" __init__).2 ∧
  snapshot_inv (restore_position (λ _, None) "xz" (Some 1500%Z) __init__).2 ∧
  snapshot_inv (get_status __init__).2 ∧
  snapshot_inv (cmd_KTC_SAVE_CURRENT_POSITION (λ _, 1%float) gcmd __init__).2 ∧
  snapshot_inv (cmd_KTC_RESTORE_POSITION (λ _, None) gcmd __init__).2.
Proof.
  intros gcmd.
  apply (snapshot_inv_preserved (λ _, 1%float) (λ _, None) __init__ gcmd "xz"
           (Some 1500%Z)).
  reflexivity.
Defined.

(** The feed rate 0 on letters of the table.  A restore with feed rate 0 is
    the very call with no feed rate; and on a snapshot where some requested
    axis holds a value, the sequence made of letters of the table, the
    script handed to the executor is G0 and the axis terms, with no feed
    term. *)
Theorem restore_position_feed_zero
    (run_script_from_command : string → option exn)
    (self : KlipperSaveRestorePosition) (axis_to_restore : string) :
  snapshot_inv self →
  Forall (λ axis, is_Some (XYZ_TO_INDEX !! axis)) (chars axis_to_restore) →
  Exists (λ axis, is_Some (slot_of (_saved_position self) axis))
    (chars axis_to_restore) →
  restore_position run_script_from_command axis_to_restore (Some 0%Z) self
  = restore_position run_script_from_command axis_to_restore None self ∧
  gcode (restore_position run_script_from_command axis_to_restore (Some 0%Z) self).2
  = gcode self ++
    ["G0" +:+ axis_terms (_saved_position self) (chars axis_to_restore)].
Proof.
  intros Hinv Hrec Hsome. split; [apply restore_position_speed_0|].
  rewrite restore_position_recognized by done. cbv zeta.
  rewrite decide_False.
  - simpl. by rewrite app_empty_r_str.
  - rewrite axis_terms_empty. intros Hnone.
    apply Exists_exists in Hsome as (axis & Hin & [v Hv]).
    rewrite Forall_forall in Hnone. specialize (Hnone axis Hin). congruence.
Qed.

Lemma restore_position_feed_zero_witness :
  let self := {| _saved_position := [Some 1%float; None; Some 2%float];
                 gcode := [] |} in
  restore_position (λ _, None) "ZX" (Some 0%Z) self
  = restore_position (λ _, None) "ZX" None self ∧
  gcode (restore_position (λ _, None) "ZX" (Some 0%Z) self).2
  = ["G0 Z2.000 X1.000"].
Proof.
  intros self.
  apply (restore_position_feed_zero (λ _, None) self "ZX").
  - reflexivity.
  - repeat constructor; vm_compute; eauto.
  - apply Exists_cons_hd. vm_compute. eauto.
Defined.

(** C10 (the code at the failing input).  With X = 1.0 stored, the
    sequence X, A and the feed rate 0: a requested axis holds a value, and
    the call is the call with no feed rate, yet no command is emitted at
    all, with or without a feed term: the lookup of A in the table is a
    [KeyError], wrapped, and nothing is handed to the executor. *)
Theorem restore_position_feed_zero_unknown_entry :
  let self := {| _saved_position := [Some 1%float; None; None]; gcode := [] |} in
  slot_of (_saved_position self) "X" = Some 1%float ∧
  restore_position (λ _, None) "XA" (Some 0%Z) self =
  (Raise (Exception "Error restoring position: 'A'" (KeyError "A")), self) ∧
  restore_position (λ _, None) "XA" (Some 0%Z) self =
  restore_position (λ _, None) "XA" None self.
Proof. vm_compute. split_and!; reflexivity. Qed.

(** ** Further properties of the code *)

(** X1.  Given a list of three slots that is its caller's own, not the
    list of the object (as at its one call), and a payload of parsed
    values, [offset_from_gcmd] either raises the [TypeError] of adding to
    [None], which happens exactly when some axis has an adjustment, no
    absolute value, and a slot that is [None]; or it returns the list in
    which each slot is the absolute value of its axis if the payload has
    one, else the old value plus the adjustment if the payload has one,
    else the old value.  The snapshot of the object is then not written. *)
Theorem offset_from_gcmd_three_slots (gcmd : GCodeCommand)
    (x y z : option float) (self : KlipperSaveRestorePosition) :
  offset_from_gcmd gcmd [x; y; z] self =
  if adjusts_unset gcmd "X" x || adjusts_unset gcmd "Y" y
     || adjusts_unset gcmd "Z" z
  then
    (Raise (TypeError "unsupported operand type(s) for +=: 'NoneType' and 'float'"),
     self)
  else
    (Return [offset_slot gcmd "X" x; offset_slot gcmd "Y" y;
             offset_slot gcmd "Z" z],
     self).
Proof.
  unfold offset_from_gcmd, adjusts_unset, adjust_only, offset_slot.
  cbn [for_in].
  change ("X" +:+ "_ADJUST") with "X_ADJUST".
  change ("Y" +:+ "_ADJUST") with "Y_ADJUST".
  change ("Z" +:+ "_ADJUST") with "Z_ADJUST".
  destruct (get_float gcmd "X") as [px|], (get_float gcmd "X_ADJUST") as [dx|],
    (get_float gcmd "Y") as [py|], (get_float gcmd "Y_ADJUST") as [dy|],
    (get_float gcmd "Z") as [pz|], (get_float gcmd "Z_ADJUST") as [dz|],
    x as [x|], y as [y|], z as [z|];
    reflexivity.
Qed.

Example offset_from_gcmd_adjusts_stored :
  offset_from_gcmd
    {| float_params := {[ "X_ADJUST" := 2.5%float; "Z" := 1%float ]};
       AXIS := None; SPEED := None |}
    [Some 5%float; Some 2%float; None] __init__ =
  (Return [Some 7.5%float; Some 2%float; Some 1%float], __init__).
Proof. vm_compute. reflexivity. Qed.

(** X2.  On a payload of parsed values (each of the six parameters absent
    or a float the host has parsed), [cmd_KTC_SAVE_POSITION] is all or
    nothing, and which of the two is a matter of the payload alone: when
    some axis has an adjustment and no absolute value it raises the command
    error caused by the [TypeError] and leaves the object exactly as it
    was; otherwise it returns and the snapshot is replaced by the absolute
    values of the payload, unset for an axis without one.  Nothing is
    handed to the executor either way. *)
Theorem cmd_KTC_SAVE_POSITION_all_or_nothing (gcmd : GCodeCommand)
    (self : KlipperSaveRestorePosition) :
  (existsb (adjust_only gcmd) ["X"; "Y"; "Z"] = true ∧
   cmd_KTC_SAVE_POSITION gcmd self =
   (Raise (CommandError
      "KTC_SAVE_POSITION: Error: unsupported operand type(s) for +=: 'NoneType' and 'float'"
      (TypeError "unsupported operand type(s) for +=: 'NoneType' and 'float'")),
    self)) ∨
  (existsb (adjust_only gcmd) ["X"; "Y"; "Z"] = false ∧
   cmd_KTC_SAVE_POSITION gcmd self =
   (Return tt,
    {| _saved_position :=
         [get_float gcmd "X"; get_float gcmd "Y"; get_float gcmd "Z"];
       gcode := gcode self |})).
Proof.
  rewrite cmd_KTC_SAVE_POSITION_cases.
  destruct (existsb _ _); [left|right]; done.
Qed.

(** X3.  [cmd_KTC_SAVE_POSITION] is idempotent: the same payload a second
    time, straight after, changes nothing more and has the same outcome. *)
Theorem cmd_KTC_SAVE_POSITION_idempotent (gcmd : GCodeCommand)
    (self : KlipperSaveRestorePosition) :
  (cmd_KTC_SAVE_POSITION gcmd;; cmd_KTC_SAVE_POSITION gcmd) self =
  cmd_KTC_SAVE_POSITION gcmd self.
Proof.
  unfold mbind, M_bind. rewrite cmd_KTC_SAVE_POSITION_cases.
  destruct (existsb _ _) eqn:Hadj; [done|].
  rewrite cmd_KTC_SAVE_POSITION_cases, Hadj. done.
Qed.

(** X4.  The two tables of the module agree: the letter of an index, looked
    up in [XYZ_TO_INDEX], gives the index back for 0, 1 and 2 (there is no
    letter for any other index); and the index of a letter, of either case,
    has a letter in [INDEX_TO_XYZ] with that same index. *)
Theorem XYZ_INDEX_round_trip (i : nat) (axis : string) :
  ((letter ← INDEX_TO_XYZ !! i; XYZ_TO_INDEX !! letter)
   = if decide (i < 3) then Some i else None) ∧
  ((j ← XYZ_TO_INDEX !! axis; letter ← INDEX_TO_XYZ !! j; XYZ_TO_INDEX !! letter)
   = XYZ_TO_INDEX !! axis).
Proof.
  split.
  - destruct i as [|[|[|i]]]; [done..|].
    rewrite decide_False by lia.
    unfold INDEX_TO_XYZ. simpl list_to_map.
    rewrite !lookup_insert_ne, lookup_empty by lia. reflexivity.
  - destruct (XYZ_TO_INDEX !! axis) as [j|] eqn:Hj; [|done].
    apply XYZ_TO_INDEX_Some in Hj as [[-> _]|[[-> _]|[-> _]]]; done.
Qed.

Lemma chars_app (a b : string) : chars (a +:+ b) = chars a ++ chars b.
Proof.
  induction a as [|c a IH]; [done|].
  rewrite append_cons_str. simpl. by rewrite IH.
Qed.

Lemma requested_app (i : nat) (a b : string) :
  requested i (a +:+ b) = requested i a || requested i b.
Proof. unfold requested. by rewrite chars_app, existsb_app. Qed.

(** Two sequences that ask for the same slots are captured alike. *)
Lemma captured_ext (current_position : nat → float) (a b : string) :
  (∀ i, requested i a = requested i b) →
  captured current_position a = captured current_position b.
Proof. intros Hreq. unfold captured. simpl. by rewrite !Hreq. Qed.

Lemma requested_remove_spaces (i : nat) (s : string) :
  requested i (remove_spaces s) = requested i s.
Proof.
  unfold requested. induction s as [|c s IH]; [done|].
  simpl. case_bool_decide as Hc; simpl.
  - subst c. rewrite IH.
    rewrite bool_decide_eq_false_2; [done|].
    intros Hi. apply XYZ_TO_INDEX_Some in Hi. naive_solver.
  - by rewrite IH.
Qed.

(** X5.  A capture depends on which axes the sequence names, not on how:
    the order of the entries does not matter, and naming the axes once
    more changes nothing. *)
Theorem SaveCurrentPosition_order_and_repeats (current_position : nat → float)
    (a b : string) (self : KlipperSaveRestorePosition) :
  SaveCurrentPosition current_position (a +:+ b) self =
  SaveCurrentPosition current_position (b +:+ a) self ∧
  SaveCurrentPosition current_position (a +:+ a) self =
  SaveCurrentPosition current_position a self.
Proof.
  rewrite !SaveCurrentPosition_captured. split; do 2 f_equal;
    apply captured_ext; intros i; rewrite !requested_app.
  - apply orb_comm.
  - apply orb_diag.
Qed.

(** X6.  The handler of KTC_SAVE_CURRENT_POSITION is the capture of the
    AXIS parameter as typed, and of all three axes when there is none:
    taking the blanks out first changes nothing, since the capture skips
    every entry that is not a letter of the table.  It never raises. *)
Theorem cmd_KTC_SAVE_CURRENT_POSITION_capture (current_position : nat → float)
    (gcmd : GCodeCommand) (self : KlipperSaveRestorePosition) :
  cmd_KTC_SAVE_CURRENT_POSITION current_position gcmd self =
  SaveCurrentPosition current_position (default "XYZ" (AXIS gcmd)) self ∧
  (cmd_KTC_SAVE_CURRENT_POSITION current_position gcmd self).1 = Return tt ∧
  cmd_KTC_SAVE_CURRENT_POSITION current_position
    {| float_params := float_params gcmd; AXIS := None; SPEED := SPEED gcmd |}
    self =
  (Return tt,
   {| _saved_position := [Some (current_position 0); Some (current_position 1);
                          Some (current_position 2)];
      gcode := gcode self |}).
Proof.
  unfold cmd_KTC_SAVE_CURRENT_POSITION. rewrite !SaveCurrentPosition_captured.
  split_and!.
  - do 2 f_equal. apply captured_ext. intros i. apply requested_remove_spaces.
  - done.
  - done.
Qed.

(** One round of the loop of [restore_position], in full. *)
Lemma restore_body_cases (cmd axis : string) self :
  restore_body cmd axis self =
  match XYZ_TO_INDEX !! axis with
  | None => (Raise (KeyError axis), self)
  | Some i =>
      match _saved_position self !! i with
      | None => (Raise (IndexError "list index out of range"), self)
      | Some slot =>
          (Return (cmd +:+ match slot with
                           | Some value => " " +:+ axis +:+ format_3f value
                           | None => ""
                           end), self)
      end
  end.
Proof.
  cbv beta. unfold dict_getitem, list_getitem, get_saved_position.
  unfold mbind, M_bind. 
  destruct (XYZ_TO_INDEX !! axis) as [i|]; [|done]. simpl.
  destruct (_saved_position self !! i) as [[value|]|]; simpl; [done| |done].
  mret_unfold. by rewrite app_empty_r_str.
Qed.

(** When the loop returns, every entry was a letter of the table and the
    text is the start plus the axis terms. *)
Lemma restore_loop_Return (axes : list string) :
  ∀ (cmd0 cmd : string) self self',
    for_in axes cmd0 restore_body self = (Return cmd, self') →
    Forall (λ axis, is_Some (XYZ_TO_INDEX !! axis)) axes ∧
    cmd = cmd0 +:+ axis_terms (_saved_position self) axes.
Proof.
  induction axes as [|axis axes IH]; intros cmd0 cmd self self' Hrun.
  { injection Hrun as <- _. split; [done|]. simpl. by rewrite app_empty_r_str. }
  rewrite for_in_cons in Hrun. unfold mbind at 1, M_bind at 1 in Hrun.
  change ((λ (cmd : string) (axis : string),
             dict_getitem XYZ_TO_INDEX axis ≫= _) cmd0 axis self)
    with (restore_body cmd0 axis self) in Hrun.
  rewrite restore_body_cases in Hrun.
  destruct (XYZ_TO_INDEX !! axis) as [i|] eqn:Hi; [|done].
  destruct (_saved_position self !! i) as [slot|] eqn:Hslot; [|done].
  apply IH in Hrun as [Hrec ->]. split.
  - apply Forall_cons. split; [by rewrite Hi|done].
  - simpl axis_terms. unfold slot_of. rewrite Hi. simpl. rewrite Hslot. simpl.
    by rewrite app_assoc_str.
Qed.

(** The first entry of a list that fails a decidable test. *)
Lemma Forall_first_failure {A : Type} (P : A → Prop) `{!∀ x, Decision (P x)}
    (l : list A) :
  ¬ Forall P l →
  ∃ pre x post, l = pre ++ x :: post ∧ Forall P pre ∧ ¬ P x.
Proof.
  induction l as [|x l IH]; intros Hnot; [by destruct Hnot|].
  destruct (decide (P x)) as [Hx|Hx].
  - destruct IH as (pre & y & post & -> & Hpre & Hy).
    { intros Hl. apply Hnot. by constructor. }
    exists (x :: pre), y, post. split_and!; [done| by constructor |done].
  - exists [], x, l. by split_and!.
Qed.

(** X7.  For every input whatever, [restore_position] never writes the
    snapshot, keeps the scripts handed over before, and hands the executor
    at most one script more. *)
Theorem restore_position_at_most_one_script
    (run_script_from_command : string → option exn)
    (self : KlipperSaveRestorePosition) (axis_to_restore : string)
    (speed : option Z) :
  let result := restore_position run_script_from_command axis_to_restore speed self in
  _saved_position result.2 = _saved_position self ∧
  (gcode result.2 = gcode self ∨ ∃ cmd, gcode result.2 = gcode self ++ [cmd]).
Proof.
  intros result. subst result.
  destruct (restore_position_cases run_script_from_command self
              axis_to_restore speed) as (outcome & g & -> & Hcases).
  simpl. split; [done|].
  destruct Hcases as [->|(cmd & -> & _)]; eauto.
Qed.

(** X8.  Whatever [restore_position] hands to the executor is a move with
    at least one axis term: every entry of the sequence was then a letter
    of the table, some requested axis held a value, and the script is G0,
    the axis terms in the order given and the feed term; never a bare G0,
    never a feed term alone. *)
Theorem restore_position_script
    (run_script_from_command : string → option exn)
    (self : KlipperSaveRestorePosition) (axis_to_restore : string)
    (speed : option Z) (cmd : string) :
  gcode (restore_position run_script_from_command axis_to_restore speed self).2
  = gcode self ++ [cmd] →
  Forall (λ axis, is_Some (XYZ_TO_INDEX !! axis)) (chars axis_to_restore) ∧
  Exists (λ axis, is_Some (slot_of (_saved_position self) axis))
    (chars axis_to_restore) ∧
  cmd = "G0" +:+ axis_terms (_saved_position self) (chars axis_to_restore)
             +:+ feed_term speed.
Proof.
  unfold restore_position, try_except.
  pose proof (restore_loop_readonly (chars axis_to_restore) "G0" self) as Hro.
  pose proof (restore_loop_Return (chars axis_to_restore) "G0") as Hret.
  unfold mbind at 1, M_bind at 1.
  destruct (for_in (chars axis_to_restore) "G0" _ self) as [[text|e] self']
    eqn:Hloop; simpl in Hro; subst self'.
  2:{ simpl. intros Hg. apply (f_equal length) in Hg.
      rewrite length_app in Hg. simpl in Hg. lia. }
  apply Hret in Hloop as [Hrec ->].
  case_decide as Hterms.
  2:{ simpl. intros Hg. apply (f_equal length) in Hg.
      rewrite length_app in Hg. simpl in Hg. lia. }
  rewrite app_eq_self_str in Hterms.
  unfold gcode_run_script_from_command.
  set (script := if truthy speed then _ else _).
  intros Hg. assert (cmd = script) as ->.
  { revert Hg. destruct (run_script_from_command script); simpl; intros Hg;
      by apply app_inv_head in Hg as [= <-]. }
  clear Hg. subst script.
  split_and!; [done| |].
  - destruct (decide (Exists (λ axis, is_Some (slot_of (_saved_position self) axis))
                         (chars axis_to_restore))) as [Hsome|Hnone]; [done|].
    destruct Hterms. apply axis_terms_empty.
    apply not_Exists_Forall in Hnone; [|apply _].
    eapply Forall_impl; [exact Hnone|].
    intros axis Hax. simpl in Hax. destruct (slot_of _ axis); [|done].
    destruct Hax. eauto.
  - destruct speed as [n|]; simpl.
    + destruct (n =? 0)%Z; simpl.
      * by rewrite app_empty_r_str.
      * by rewrite app_assoc_str.
    + by rewrite app_empty_r_str.
Qed.

Lemma restore_position_script_witness :
  let self := {| _saved_position := [Some 1%float; None; Some 2%float];
                 gcode := ["G28"] |} in
  Forall (λ axis, is_Some (XYZ_TO_INDEX !! axis)) (chars "zyx") ∧
  Exists (λ axis, is_Some (slot_of (_saved_position self) axis)) (chars "zyx") ∧
  "G0 z2.000 x1.000 F-5" =
  "G0" +:+ axis_terms (_saved_position self) (chars "zyx") +:+ feed_term (Some (-5)%Z).
Proof.
  intros self.
  apply (restore_position_script (λ _, None) self "zyx" (Some (-5)%Z)).
  vm_compute. reflexivity.
Defined.

(** X9.  On a snapshot of three slots, a sequence with any entry that is
    not a letter of the table makes [restore_position] raise, whatever the
    other entries are and whatever is stored: the exception has the text
    ["Error restoring position: "] and the [repr] of the first such entry,
    its cause is the [KeyError] of that entry, nothing is handed to the
    executor and the object is left as it was. *)
Theorem restore_position_first_unrecognized
    (run_script_from_command : string → option exn)
    (self : KlipperSaveRestorePosition) (axis_to_restore : string)
    (speed : option Z) :
  snapshot_inv self →
  ¬ Forall (λ axis, is_Some (XYZ_TO_INDEX !! axis)) (chars axis_to_restore) →
  ∃ pre axis post,
    chars axis_to_restore = pre ++ axis :: post ∧
    Forall (λ axis, is_Some (XYZ_TO_INDEX !! axis)) pre ∧
    XYZ_TO_INDEX !! axis = None ∧
    restore_position run_script_from_command axis_to_restore speed self =
    (Raise (Exception ("Error restoring position: " +:+ repr axis)
              (KeyError axis)), self).
Proof.
  intros Hinv Hnot.
  apply Forall_first_failure in Hnot as (pre & axis & post & Hsplit & Hpre & Hbad);
    [|apply _].
  exists pre, axis, post. 
  assert (XYZ_TO_INDEX !! axis = None) as Hnone.
  { destruct (XYZ_TO_INDEX !! axis) eqn:Hi; [|done]. destruct Hbad. eauto. }
  split_and!; [done..|].
  by eapply restore_position_unrecognized.
Qed.

Lemma restore_position_first_unrecognized_witness :
  let self := {| _saved_position := [Some 1%float; None; Some 2%float];
                 gcode := [] |} in
  ∃ pre axis post,
    chars "X,Z" = pre ++ axis :: post ∧
    Forall (λ axis, is_Some (XYZ_TO_INDEX !! axis)) pre ∧
    XYZ_TO_INDEX !! axis = None ∧
    restore_position (λ _, None) "X,Z" (Some 3000%Z) self =
    (Raise (Exception ("Error restoring position: " +:+ repr axis)
              (KeyError axis)), self).
Proof.
  intros self.
  apply (restore_position_first_unrecognized (λ _, None) self "X,Z" (Some 3000%Z)).
  - reflexivity.
  - intros Hall. apply Forall_cons in Hall as [_ Hall].
    apply Forall_cons in Hall as [[i Hi] _]. vm_compute in Hi. discriminate.
Defined.

(** Whatever [restore_position] raises was raised by its handler. *)
Lemma restore_position_Raise (run_script_from_command : string → option exn)
    (self : KlipperSaveRestorePosition) (axis_to_restore : string)
    (speed : option Z) (e : exn) :
  (restore_position run_script_from_command axis_to_restore speed self).1 = Raise e →
  ∃ cause, e = Exception ("Error restoring position: " +:+ str cause) cause.
Proof.
  unfold restore_position, try_except.
  match goal with |- context [let (_, _) := ?body self in _] =>
    destruct (body self) as [[[]|cause] self'] end; simpl; [done|].
  intros [= <-]. eauto.
Qed.

(** X10.  On a snapshot of three slots [restore_position] fails in two
    ways only, and always with the exception whose text is
    ["Error restoring position: "] and the text of its cause: either some
    entry of the sequence is not a letter of the table, the cause is the
    [KeyError] of that entry and the object is untouched; or a script was
    handed to the executor, which failed on it, and the cause is the
    executor's own exception. *)
Theorem restore_position_failure_modes
    (run_script_from_command : string → option exn)
    (self : KlipperSaveRestorePosition) (axis_to_restore : string)
    (speed : option Z) (e : exn) :
  snapshot_inv self →
  (restore_position run_script_from_command axis_to_restore speed self).1 = Raise e →
  ∃ cause,
    e = Exception ("Error restoring position: " +:+ str cause) cause ∧
    ((∃ axis, axis ∈ chars axis_to_restore ∧ XYZ_TO_INDEX !! axis = None ∧
              cause = KeyError axis ∧
              (restore_position run_script_from_command axis_to_restore speed self).2
              = self) ∨
     (∃ cmd, run_script_from_command cmd = Some cause ∧
             gcode (restore_position run_script_from_command axis_to_restore
                      speed self).2 = gcode self ++ [cmd])).
Proof.
  intros Hinv.
  destruct (decide (Forall (λ axis, is_Some (XYZ_TO_INDEX !! axis))
                      (chars axis_to_restore))) as [Hrec|Hnot].
  - rewrite restore_position_recognized by done. cbv zeta.
    case_decide; [done|].
    destruct (run_script_from_command _) as [cause|] eqn:Hfail; [|done].
    simpl. intros [= <-]. exists cause. split; [done|]. right. eauto.
  - apply Forall_first_failure in Hnot
      as (pre & axis & post & Hsplit & Hpre & Hbad); [|apply _].
    assert (XYZ_TO_INDEX !! axis = None) as Hnone.
    { destruct (XYZ_TO_INDEX !! axis) eqn:Hi; [|done]. destruct Hbad. eauto. }
    erewrite restore_position_unrecognized by done.
    simpl. intros [= <-]. exists (KeyError axis). split; [done|]. left.
    exists axis. split_and!; [|done..].
    rewrite Hsplit. set_solver.
Qed.

Lemma restore_position_failure_modes_witness :
  let self := {| _saved_position := [Some 1%float; None; None]; gcode := [] |} in
  let run := λ _ : string, Some (HostError "Must home axis first") in
  ∃ cause,
    Exception "Error restoring position: Must home axis first"
      (HostError "Must home axis first")
    = Exception ("Error restoring position: " +:+ str cause) cause ∧
    ((∃ axis, axis ∈ chars "X" ∧ XYZ_TO_INDEX !! axis = None ∧
              cause = KeyError axis ∧
              (restore_position run "X" None self).2 = self) ∨
     (∃ cmd, run cmd = Some cause ∧
             gcode (restore_position run "X" None self).2 = gcode self ++ [cmd])).
Proof.
  intros self run.
  apply (restore_position_failure_modes run self "X" None).
  - reflexivity.
  - vm_compute. reflexivity.
Defined.

(** X11.  A restore can be repeated: on a snapshot of three slots and a
    sequence of recognized letters with a stored value among them, two
    calls in a row, the executor accepting the script, hand over the same
    script twice and leave the snapshot as it was. *)
Theorem restore_position_twice
    (run_script_from_command : string → option exn)
    (self : KlipperSaveRestorePosition) (axis_to_restore : string)
    (speed : option Z) :
  let cmd := "G0" +:+ axis_terms (_saved_position self) (chars axis_to_restore)
                  +:+ feed_term speed in
  snapshot_inv self →
  Forall (λ axis, is_Some (XYZ_TO_INDEX !! axis)) (chars axis_to_restore) →
  axis_terms (_saved_position self) (chars axis_to_restore) ≠ "" →
  run_script_from_command cmd = None →
  (restore_position run_script_from_command axis_to_restore speed;;
   restore_position run_script_from_command axis_to_restore speed) self =
  (Return tt,
   {| _saved_position := _saved_position self;
      gcode := gcode self ++ [cmd; cmd] |}).
Proof.
  intros cmd Hinv Hrec Hterms Hok. unfold mbind, M_bind.
  rewrite restore_position_recognized by done. cbv zeta.
  rewrite decide_False by done. fold cmd. rewrite Hok.
  rewrite restore_position_recognized by done. cbv zeta. simpl.
  rewrite decide_False by done. fold cmd. rewrite Hok.
  by rewrite <- app_assoc.
Qed.

Lemma restore_position_twice_witness :
  let self := {| _saved_position := [Some 1%float; None; Some 2%float];
                 gcode := [] |} in
  (restore_position (λ _, None) "ZX" (Some 3000%Z);;
   restore_position (λ _, None) "ZX" (Some 3000%Z)) self =
  (Return tt,
   {| _saved_position := [Some 1%float; None; Some 2%float];
      gcode := ["G0 Z2.000 X1.000 F3000"; "G0 Z2.000 X1.000 F3000"] |}).
Proof.
  intros self.
  apply (restore_position_twice (λ _, None) self "ZX" (Some 3000%Z)).
  - reflexivity.
  - repeat constructor; vm_compute; eauto.
  - vm_compute. discriminate.
  - reflexivity.
Defined.

(** X12.  Once the handler of KTC_RESTORE_POSITION has read its parameters
    (SPEED absent or an integer the host has parsed), whatever fails, in
    the [try] around [restore_position], reaches the caller as the host's
    command error with an empty text (the class is raised bare), whose
    cause is the exception of [restore_position], whose cause in turn is
    the original failure; the snapshot is as it was. *)
Theorem cmd_KTC_RESTORE_POSITION_error
    (run_script_from_command : string → option exn)
    (gcmd : GCodeCommand) (self : KlipperSaveRestorePosition) (e : exn) :
  (cmd_KTC_RESTORE_POSITION run_script_from_command gcmd self).1 = Raise e →
  str e = "" ∧
  _saved_position (cmd_KTC_RESTORE_POSITION run_script_from_command gcmd self).2
  = _saved_position self ∧
  ∃ cause,
    e = CommandError ""
          (Exception ("Error restoring position: " +:+ str cause) cause).
Proof.
  unfold cmd_KTC_RESTORE_POSITION, try_except.
  pose proof (restore_position_Raise run_script_from_command self
                (strip (default "XYZ" (AXIS gcmd))) (SPEED gcmd)) as Hraise.
  destruct (restore_position_cases run_script_from_command self
              (strip (default "XYZ" (AXIS gcmd))) (SPEED gcmd))
    as (outcome & g & Heq & _).
  rewrite Heq in *. simpl in Hraise.
  destruct outcome as [[]|e0]; simpl; [done|].
  intros [= <-]. destruct (Hraise e0 eq_refl) as [cause ->].
  split_and!; [done..|]. eauto.
Qed.

Lemma cmd_KTC_RESTORE_POSITION_error_witness :
  let self := {| _saved_position := [Some 1%float; None; Some 2%float];
                 gcode := [] |} in
  let gcmd := {| float_params := ∅; AXIS := Some "Z X"; SPEED := None |} in
  str (CommandError "" (Exception "Error restoring position: ' '" (KeyError " ")))
  = "" ∧
  _saved_position (cmd_KTC_RESTORE_POSITION (λ _, None) gcmd self).2
  = _saved_position self ∧
  ∃ cause,
    CommandError "" (Exception "Error restoring position: ' '" (KeyError " "))
    = CommandError ""
        (Exception ("Error restoring position: " +:+ str cause) cause).
Proof.
  intros self gcmd.
  apply (cmd_KTC_RESTORE_POSITION_error (λ _, None) gcmd self).
  vm_compute. reflexivity.
Defined.

(** Whitespace at either end of a text is what [strip] takes away. *)
Lemma lstrip_space_app (w s : string) :
  all_space w = true → lstrip (w +:+ s) = lstrip s.
Proof.
  induction w as [|c w IH]; [done|].
  simpl all_space. intros [Hc Hw]%andb_true_iff.
  rewrite append_cons_str. simpl. rewrite Hc. auto.
Qed.

Lemma rstrip_space (w : string) : all_space w = true → rstrip w = "".
Proof.
  induction w as [|c w IH]; [done|].
  simpl. intros [Hc Hw]%andb_true_iff. by rewrite IH, Hc.
Qed.

Lemma rstrip_app_space (s w : string) :
  all_space w = true → rstrip (s +:+ w) = rstrip s.
Proof.
  intros Hw. induction s as [|c s IH].
  - rewrite append_nil_str. by apply rstrip_space.
  - rewrite append_cons_str. simpl. by rewrite IH.
Qed.

Lemma lstrip_app_space (s w : string) :
  all_space w = true →
  ∃ w', all_space w' = true ∧ lstrip (s +:+ w) = lstrip s +:+ w'.
Proof.
  intros Hw. induction s as [|c s IH].
  - exists "". split; [done|]. rewrite append_nil_str.
    rewrite <- (app_empty_r_str w). by apply lstrip_space_app.
  - rewrite append_cons_str. simpl. destruct (isspace c); [done|].
    exists w. by rewrite append_cons_str.
Qed.

Lemma strip_surrounding (w1 s w2 : string) :
  all_space w1 = true → all_space w2 = true →
  strip (w1 +:+ s +:+ w2) = strip s.
Proof.
  intros Hw1 Hw2. unfold strip. rewrite lstrip_space_app by done.
  destruct (lstrip_app_space s w2 Hw2) as (w' & Hw' & ->).
  by apply rstrip_app_space.
Qed.

(** X13.  The handler of KTC_RESTORE_POSITION does not see whitespace
    around its AXIS parameter: blanks, tabs or line ends put before and
    after the parameter give the very same run, outcome and script. *)
Theorem cmd_KTC_RESTORE_POSITION_surrounding_space
    (run_script_from_command : string → option exn)
    (params : gmap string float) (speed : option Z)
    (w1 axes w2 : string) (self : KlipperSaveRestorePosition) :
  all_space w1 = true →
  all_space w2 = true →
  cmd_KTC_RESTORE_POSITION run_script_from_command
    {| float_params := params; AXIS := Some (w1 +:+ axes +:+ w2); SPEED := speed |}
    self =
  cmd_KTC_RESTORE_POSITION run_script_from_command
    {| float_params := params; AXIS := Some axes; SPEED := speed |} self.
Proof.
  intros Hw1 Hw2. unfold cmd_KTC_RESTORE_POSITION. simpl.
  by rewrite strip_surrounding.
Qed.

Lemma cmd_KTC_RESTORE_POSITION_surrounding_space_witness :
  let self := {| _saved_position := [Some 1%float; None; Some 2%float];
                 gcode := [] |} in
  cmd_KTC_RESTORE_POSITION (λ _, None)
    {| float_params := ∅; AXIS := Some "  ZX "; SPEED := Some 3000%Z |} self =
  cmd_KTC_RESTORE_POSITION (λ _, None)
    {| float_params := ∅; AXIS := Some "ZX"; SPEED := Some 3000%Z |} self.
Proof.
  intros self.
  apply (cmd_KTC_RESTORE_POSITION_surrounding_space (λ _, None) ∅
           (Some 3000%Z) "  " "ZX" " " self); reflexivity.
Defined.

(** X14.  A set from a payload and then a restore of X, Y, Z moves exactly
    the axes the payload gave an absolute value for: when no axis has an
    adjustment alone, the snapshot becomes the absolute values, and the
    script is G0, then for X, Y, Z in this order the term of each axis with
    an absolute value, then the feed term; with no absolute value at all
    nothing is handed to the executor. *)
Theorem save_then_restore (run_script_from_command : string → option exn)
    (gcmd : GCodeCommand) (speed : option Z)
    (self : KlipperSaveRestorePosition) :
  let term := λ axis, match get_float gcmd axis with
                      | Some value => " " +:+ axis +:+ format_3f value
                      | None => ""
                      end in
  let terms := term "X" +:+ term "Y" +:+ term "Z" in
  let cmd := "G0" +:+ terms +:+ feed_term speed in
  let saved := [get_float gcmd "X"; get_float gcmd "Y"; get_float gcmd "Z"] in
  existsb (adjust_only gcmd) ["X"; "Y"; "Z"] = false →
  (cmd_KTC_SAVE_POSITION gcmd;;
   restore_position run_script_from_command "XYZ" speed) self =
  if decide (terms = "")
  then (Return tt, {| _saved_position := saved; gcode := gcode self |})
  else
    (match run_script_from_command cmd with
     | None => Return tt
     | Some e => Raise (Exception ("Error restoring position: " +:+ str e) e)
     end,
     {| _saved_position := saved; gcode := gcode self ++ [cmd] |}).
Proof.
  intros term terms cmd saved Hadj. unfold mbind, M_bind.
  rewrite cmd_KTC_SAVE_POSITION_cases, Hadj.
  rewrite restore_position_recognized;
    [|repeat constructor; vm_compute; eauto|reflexivity].
  cbv zeta. simpl _saved_position. simpl gcode. cbn [fmap list_fmap].
  assert (axis_terms [get_float gcmd "X"; get_float gcmd "Y"; get_float gcmd "Z"]
            (chars "XYZ") = terms) as ->; [|done].
  subst terms term.
  change (chars "XYZ") with ["X"; "Y"; "Z"]. simpl axis_terms.
  unfold slot_of. rewrite XYZ_TO_INDEX_X, XYZ_TO_INDEX_Y, XYZ_TO_INDEX_Z.
  simpl. by rewrite app_empty_r_str.
Qed.

Lemma save_then_restore_witness :
  let self := {| _saved_position := [None; Some 7%float; None]; gcode := [] |} in
  let gcmd := {| float_params := {[ "X" := 1%float; "Z" := 2%float ]};
                 AXIS := None; SPEED := None |} in
  (cmd_KTC_SAVE_POSITION gcmd;;
   restore_position (λ _, None) "XYZ" (Some 3000%Z)) self =
  (Return tt,
   {| _saved_position := [Some 1%float; None; Some 2%float];
      gcode := ["G0 X1.000 Z2.000 F3000"] |}).
Proof.
  intros self gcmd.
  apply (save_then_restore (λ _, None) gcmd (Some 3000%Z) self).
  vm_compute. reflexivity.
Defined.

(** X15.  A capture and then a restore moves, among the axes the restore
    asks for, exactly those the capture asked for, to the captured
    coordinates: for a restore sequence of recognized letters the script is
    G0, the terms of the captured snapshot in the order of the restore
    sequence, and the feed term; when the restore asks for no captured
    axis, nothing is handed to the executor. *)
Theorem capture_then_restore_axes (current_position : nat → float)
    (run_script_from_command : string → option exn)
    (restore_axis axis_to_restore : string) (speed : option Z)
    (self : KlipperSaveRestorePosition) :
  let saved := captured current_position restore_axis in
  let terms := axis_terms saved (chars axis_to_restore) in
  let cmd := "G0" +:+ terms +:+ feed_term speed in
  Forall (λ axis, is_Some (XYZ_TO_INDEX !! axis)) (chars axis_to_restore) →
  (SaveCurrentPosition current_position restore_axis;;
   restore_position run_script_from_command axis_to_restore speed) self =
  if decide (terms = "")
  then (Return tt, {| _saved_position := saved; gcode := gcode self |})
  else
    (match run_script_from_command cmd with
     | None => Return tt
     | Some e => Raise (Exception ("Error restoring position: " +:+ str e) e)
     end,
     {| _saved_position := saved; gcode := gcode self ++ [cmd] |}).
Proof.
  intros saved terms cmd Hrec.
  erewrite bind_Return by apply SaveCurrentPosition_captured.
  by rewrite restore_position_recognized.
Qed.

Lemma capture_then_restore_axes_witness :
  (SaveCurrentPosition
     (λ i, match i with 0 => 10.1234 | 1 => 7 | _ => -3 end)%float "xz";;
   restore_position (λ _, None) "ZYX" None) __init__ =
  (Return tt,
   {| _saved_position := [Some 10.1234%float; None; Some (-3)%float];
      gcode := ["G0 Z-3.000 X10.123"] |}).
Proof.
  apply (capture_then_restore_axes
           (λ i, match i with 0 => 10.1234 | 1 => 7 | _ => -3 end)%float
           (λ _, None) "xz" "ZYX" None __init__).
  repeat constructor; vm_compute; eauto.
Defined.

Lemma slot_of_unset (axis : string) : slot_of [None; None; None] axis = None.
Proof.
  unfold slot_of. destruct (XYZ_TO_INDEX !! axis) as [i|]; [|done].
  simpl. by destruct i as [|[|[|i]]].
Qed.

(** X16.  Before anything was saved there is nothing to restore: on the
    object [load_config] gives, a restore of any sequence of recognized
    letters, at any feed rate, returns without handing anything to the
    executor, and so does the handler of KTC_RESTORE_POSITION without an
    AXIS parameter. *)
Theorem restore_position_fresh (run_script_from_command : string → option exn)
    (axis_to_restore : string) (speed : option Z) (params : gmap string float) :
  Forall (λ axis, is_Some (XYZ_TO_INDEX !! axis)) (chars axis_to_restore) →
  restore_position run_script_from_command axis_to_restore speed load_config
  = (Return tt, load_config) ∧
  cmd_KTC_RESTORE_POSITION run_script_from_command
    {| float_params := params; AXIS := None; SPEED := speed |} load_config
  = (Return tt, load_config).
Proof.
  intros Hrec.
  assert (∀ axes, Forall (λ axis, is_Some (XYZ_TO_INDEX !! axis)) (chars axes) →
            restore_position run_script_from_command axes speed load_config
            = (Return tt, load_config)) as Hfresh.
  { intros axes Haxes. rewrite restore_position_recognized by done.
    cbv zeta. rewrite decide_True; [done|].
    apply axis_terms_empty, Forall_forall. intros axis _.
    apply slot_of_unset. }
  split; [by apply Hfresh|].
  unfold cmd_KTC_RESTORE_POSITION, try_except. simpl.
  rewrite Hfresh; [done|].
  repeat constructor; vm_compute; eauto.
Qed.

Lemma restore_position_fresh_witness :
  restore_position (λ _, None) "zyx" (Some 3000%Z) load_config
  = (Return tt, load_config) ∧
  cmd_KTC_RESTORE_POSITION (λ _, None)
    {| float_params := ∅; AXIS := None; SPEED := Some 3000%Z |} load_config
  = (Return tt, load_config).
Proof.
  apply (restore_position_fresh (λ _, None) "zyx" (Some 3000%Z) ∅).
  repeat constructor; vm_compute; eauto.
Defined.
